(** * The mermaid-to-svg worker: cache-backed render pipeline

    A shallow embedding of [src/index.ts] (the version with cache
    statistics: [getCacheStats], [incrementCacheHit], [incrementCacheMiss],
    [resetCacheStats] and the [fetch] handler) and the properties of the
    render pipeline, the stats store and the debug endpoints.

    How the program is modelled:
    - the handler is an [async] function over three stores of the platform
      (the KV namespace [env.CACHE_STATS], the cache [caches.default] and
      the list of promises handed to [ctx.waitUntil]); it is written in a
      state-and-exception monad [M] over a [World], every [await] being a
      bind, a rejected promise being [Throws];
    - what the platform decides is an explicit input: the [Runtime] holds the
      library functions the source imports ([new URL], lz-string's
      [decompressFromEncodedURIComponent], the language's number printing),
      the [Oracle] holds what may differ from one request to the next (the
      clock, whether a store call rejects, what the headless browser
      answers);
    - every external effect is appended to [trace], so that "the renderer
      was reached", "no cache interaction" and "the miss is recorded before
      the renderer is invoked" are statements about that list;
    - numbers: the counters only ever hold non-negative integers (they start
      at 0 and are changed by [++]), so they are kept in [N]; the hit rate
      is computed as the source does, in IEEE-754 binary64
      ([SpecFloat], [prec = 53], [emax = 1024]), and printed by
      [Number.prototype.toFixed] as ECMAScript defines it. *)

From Stdlib Require Import ZArith NArith String Ascii List Lia.
From Stdlib Require Import DecimalString DecimalN SpecFloat.
From stdpp Require Import gmap strings.

(** ** Values *)

(** A JavaScript value that the handler serialises with [JSON.stringify]. *)
#[local] Set Warnings "-register-all".
Inductive json : Type :=
| JNum (n : N)
| JStr (s : string)
| JArr (items : list json)
| JObj (fields : list (string * json)).
#[local] Set Warnings "register-all".

(** [interface CacheStats { hits: number; misses: number; lastReset: string }] *)
Record CacheStats : Type := mkStats {
  hits : N;
  misses : N;
  lastReset : string
}.

(** A text held by the KV namespace: either what [JSON.stringify] wrote for
    a stats record, or a text on which [JSON.parse] throws.  (Texts that
    parse to something that is not a stats record are outside the model.) *)
Inductive kv_text : Type :=
| Stringified (s : CacheStats)
| Unparseable (raw : string).

(** The body of a [Response]: a plain text, or [JSON.stringify(j, null, space)]
    ([space = 0] when the call gives no indentation). *)
Inductive Body : Type :=
| Text (s : string)
| Json (space : N) (j : json).

(** A [Response]: status, body and the headers the constructor was given
    (the platform adds a default content type to a text body). *)
Record Response : Type := mkResponse {
  status : N;
  body : Body;
  headers : list (string * string)
}.

(** A [Request], as far as the handler reads it. *)
Record Request : Type := mkRequest {
  url : string;
  method : string
}.

(** What [new URL(request.url)] exposes to the handler. *)
Record URL : Type := mkURL {
  pathname : string;
  searchParams : list (string * string)
}.

(** The promise handed to [ctx.waitUntil]: only [cache.put] is. *)
Inductive Task : Type :=
| CachePut (request : Request) (response : Response).

(** External effects, in the order the handler performs them. *)
Inductive Event : Type :=
| EvKvGet (key : string)
| EvKvPut (key : string) (value : kv_text)
| EvCacheMatch (key : string)
| EvCacheKeys
| EvCachePut (key : string)
| EvRender (diagram theme : string)
| EvLog (msg : string)
| EvError (msg err : string).

(** What the browser session gives: the value of [page.evaluate]
    ([None] is [undefined]), or a fault thrown by any step of the [try]. *)
Inductive RenderResult : Type :=
| Rendered (svg : option string)
| Faulted (err : string).

(** How a call ends: with a value, or by throwing (for an [await], by a
    rejected promise). *)
Inductive Outcome (A : Type) : Type :=
| Returns (a : A)
| Throws (e : string).
Arguments Returns {A} a.
Arguments Throws {A} e.

(** ** The platform *)

(** lz-string's [decompressFromEncodedURIComponent] gives the text, [None]
    ([null]) for the payloads it recognises as corrupt, and on others it
    throws (a [TypeError] from inside its decoding loop). *)
Record Runtime : Type := mkRuntime {
  new_URL : string -> URL;
  decompressFromEncodedURIComponent : string -> Outcome (option string);
  Number_toString : spec_float -> string
}.

Record Oracle : Type := mkOracle {
  now : string;                       (* new Date().toISOString() *)
  kv_get_fault : bool;                (* env.CACHE_STATS.get rejects *)
  kv_put_fault : bool;                (* env.CACHE_STATS.put rejects *)
  cache_match_fault : bool;           (* cache.match rejects *)
  cache_put_fault : bool;             (* cache.put rejects *)
  cache_keys_fault : bool;            (* cache.keys rejects: the Workers
                                         runtime does not implement it *)
  puppeteer : string -> string -> RenderResult
}.

Record World : Type := mkWorld {
  kv : gmap string kv_text;           (* env.CACHE_STATS *)
  cache : list (Request * Response);  (* caches.default, oldest entry first *)
  pending : list Task;                (* ctx.waitUntil *)
  trace : list Event
}.

(** ** The monad of the handler *)

Definition M (A : Type) : Type := World -> Outcome A * World.

#[global] Instance M_ret : MRet M := fun A a w => (Returns a, w).

#[global] Instance M_bind : MBind M := fun A B f m w =>
  match m w with
  | (Returns a, w') => f a w'
  | (Throws e, w') => (Throws e, w')
  end.

Definition throw {A : Type} (e : string) : M A := fun w => (Throws e, w).

(** A library call inside the handler: its value, or what it throws. *)
Definition call {A : Type} (x : Outcome A) : M A := fun w => (x, w).

(** [try { m } catch (err) { h err }] *)
Definition try_catch {A : Type} (m : M A) (h : string -> M A) : M A := fun w =>
  match m w with
  | (Returns a, w') => (Returns a, w')
  | (Throws e, w') => h e w'
  end.

Definition emit (ev : Event) : M unit := fun w =>
  (Returns tt, mkWorld (kv w) (cache w) (pending w) (trace w ++ [ev])).

Definition console_log (msg : string) : M unit := emit (EvLog msg).
Definition console_error (msg err : string) : M unit := emit (EvError msg err).

(** ** Numbers *)

Module Number.

Local Open Scope Z_scope.

(** The binary64 value of an integer (round to nearest, ties to even). *)
Definition of_N (n : N) : spec_float :=
  binary_normalize 53 1024 (Z.of_N n) 0 false.

Definition mul : spec_float -> spec_float -> spec_float := SFmul 53 1024.
Definition div : spec_float -> spec_float -> spec_float := SFdiv 53 1024.

(** The decimal digits of a non-negative integer, ["0"] for zero. *)
Definition digits (n : N) : string :=
  NilZero.string_of_uint (N.to_uint n).

(** [toFixed], step "let n be an integer for which n / 10^f - x is as
    close to zero as possible; if there are two such n, pick the larger",
    for [x = m * 2^e]: the floor of [x * 10^f + 1/2]. *)
Definition nearest_scaled (f : N) (m : positive) (e : Z) : Z :=
  if 0 <=? e then Z.pos m * 2 ^ e * 10 ^ Z.of_N f
  else (2 * Z.pos m * 10 ^ Z.of_N f + 2 ^ (- e)) / 2 ^ (1 - e).

(** [x >= 10^21] for [x = m * 2^e]. *)
Definition reaches_1e21 (m : positive) (e : Z) : bool :=
  if 0 <=? e then 10 ^ 21 <=? Z.pos m * 2 ^ e
  else 10 ^ 21 * 2 ^ (- e) <=? Z.pos m.

Fixpoint zeros (k : nat) : string :=
  match k with
  | O => EmptyString
  | S k' => String "0" (zeros k')
  end.

(** [toFixed], the steps that turn [n] into text: the digits of [n],
    padded with zeros on the left to [f + 1] characters, and a point
    before the last [f] of them. *)
Definition fixed_digits (f : N) (n : N) : string :=
  let m := digits n in
  if (f =? 0)%N then m
  else
    let f' := N.to_nat f in
    let m := zeros (S f' - String.length m) +:+ m in
    let k := String.length m in
    substring 0 (k - f') m +:+ "." +:+ substring (k - f') f' m.

Section ToFixed.
Variable rt : Runtime.

(** [Number.prototype.toFixed(f)] for [0 <= f <= 100]: a value that is
    not finite, or whose magnitude reaches [10^21], is printed by
    [Number::toString]; the sign is that of a value below zero (a zero
    of either sign prints without one). *)
Definition toFixed (f : N) (x : spec_float) : string :=
  match x with
  | S754_nan | S754_infinity _ => Number_toString rt x
  | S754_zero _ => fixed_digits f 0
  | S754_finite s m e =>
      (if s then "-" else "") +:+
      (if reaches_1e21 m e then Number_toString rt (S754_finite false m e)
       else fixed_digits f (Z.to_N (nearest_scaled f m e)))
  end.

(** A counter inside a template literal: [`${n}`]. *)
Definition show (n : N) : string :=
  if (n <? 10 ^ 21)%N then digits n else Number_toString rt (of_N n).
End ToFixed.

(** The values [toFixed] prints itself: finite and below [10^21]. *)
Definition plain (x : spec_float) : bool :=
  match x with
  | S754_zero _ => true
  | S754_finite _ m e => negb (reaches_1e21 m e)
  | _ => false
  end.

(** The number a string of decimal digits denotes. *)
Definition value (s : string) : option N :=
  match NilEmpty.uint_of_string s with
  | Some d => Some (N.of_uint d)
  | None => None
  end.

(** [n] hundredths is a multiple of 1/100 nearest to [m * 2^e]:
    [|n - 100 * m * 2^e| <= 1/2], with the power of two cleared. *)
Definition nearest_hundredths (m : positive) (e : Z) (n : N) : Prop :=
  2 * Z.abs (Z.of_N n * 2 ^ Z.max 0 (- e) - 100 * Z.pos m * 2 ^ Z.max 0 e)
    <= 2 ^ Z.max 0 (- e).

(** [text] writes [x] with two decimal places: a sign, an integer part
    that is not empty, a point and two digits, the digits denoting the
    number of hundredths nearest to [x]. *)
Definition two_decimals (text : string) (x : spec_float) : Prop :=
  match x with
  | S754_zero _ => text = "0.00"
  | S754_finite s m e =>
      exists (a b : string) (n : N),
        text = (if s then "-" else "") +:+ a +:+ "." +:+ b /\
        a <> "" /\ String.length b = 2%nat /\
        value (a +:+ b) = Some n /\ nearest_hundredths m e n
  | _ => False
  end.

End Number.

(** ** The stores *)

Section Stores.
Variable o : Oracle.

(** [env.CACHE_STATS.get(key)]: the text under [key], [None] ([null])
    when there is none. *)
Definition CACHE_STATS_get (key : string) : M (option kv_text) := fun w =>
  let w' := mkWorld (kv w) (cache w) (pending w) (trace w ++ [EvKvGet key]) in
  if kv_get_fault o then (Throws "KV GET failed", w')
  else (Returns (kv w !! key), w').

(** [env.CACHE_STATS.put(key, value)] *)
Definition CACHE_STATS_put (key : string) (value : kv_text) : M unit := fun w =>
  let t := trace w ++ [EvKvPut key value] in
  if kv_put_fault o then
    (Throws "KV PUT failed", mkWorld (kv w) (cache w) (pending w) t)
  else (Returns tt, mkWorld (<[key := value]> (kv w)) (cache w) (pending w) t).

Definition same_key (key : string) (entry : Request * Response) : bool :=
  String.eqb (url (fst entry)) key.

Definition cache_find (key : string) (c : list (Request * Response))
  : option Response :=
  match List.find (same_key key) c with
  | Some entry => Some (snd entry)
  | None => None
  end.

(** [cache.match(key)] for a URL string: the response stored under that
    URL, [None] ([undefined]) when there is none. *)
Definition cache_match (key : string) : M (option Response) := fun w =>
  let w' := mkWorld (kv w) (cache w) (pending w) (trace w ++ [EvCacheMatch key]) in
  if cache_match_fault o then (Throws "cache.match failed", w')
  else (Returns (cache_find key (cache w)), w').

(** [cache.keys()]: the requests of the entries, oldest first, where the
    platform has the method; where it has not, the call rejects. *)
Definition cache_keys : M (list Request) := fun w =>
  let w' := mkWorld (kv w) (cache w) (pending w) (trace w ++ [EvCacheKeys]) in
  if cache_keys_fault o then (Throws "cache.keys failed", w')
  else (Returns (List.map fst (cache w)), w').

(** [ctx.waitUntil(promise)]: the promise is kept by the runtime and
    settles after the handler has answered. *)
Definition ctx_waitUntil (t : Task) : M unit := fun w =>
  (Returns tt, mkWorld (kv w) (cache w) (pending w ++ [t]) (trace w)).

(** What [cache.put(request, response)] does to the cache when it
    succeeds: the entry of that URL is replaced. *)
Definition cache_store (request : Request) (response : Response)
    (c : list (Request * Response)) : list (Request * Response) :=
  List.filter (fun entry => negb (same_key (url request) entry)) c
    ++ [(request, response)].

(** One pending promise settles.  [cache.put] rejects when the store
    fails and, as the Cache API has it, for a request that is not a GET;
    a rejection inside [waitUntil] is dropped by the runtime. *)
Definition settle_task (w : World) (t : Task) : World :=
  match t with
  | CachePut request response =>
      let tr := trace w ++ [EvCachePut (url request)] in
      if cache_put_fault o || negb (String.eqb (method request) "GET")
      then mkWorld (kv w) (cache w) (pending w) tr
      else mkWorld (kv w) (cache_store request response (cache w)) (pending w) tr
  end.

(** All pending promises settle, in the order they were handed over. *)
Definition settle (w : World) : World :=
  List.fold_left settle_task (pending w)
    (mkWorld (kv w) (cache w) [] (trace w)).

End Stores.

(** ** The worker, [src/index.ts] *)

Section Worker.
Variable rt : Runtime.
Variable o : Oracle.

Definition JSON_stringify (s : CacheStats) : kv_text := Stringified s.

Definition JSON_parse (t : kv_text) : M CacheStats :=
  match t with
  | Stringified s => mret s
  | Unparseable _ => throw "SyntaxError"
  end.

(** [!s] for [s : string | null] *)
Definition falsy (s : option string) : bool :=
  match s with
  | None => true
  | Some s => String.eqb s ""
  end.

(** [!stats] for the text read from the KV namespace *)
Definition falsy_text (t : option kv_text) : bool :=
  match t with
  | None => true
  | Some (Unparseable raw) => String.eqb raw ""
  | Some (Stringified _) => false
  end.

Definition getCacheStats : M CacheStats :=
  stats ← CACHE_STATS_get o "stats";
  match stats with
  | Some t =>
      if falsy_text stats then mret (mkStats 0 0 (now o))
      else JSON_parse t
  | None => mret (mkStats 0 0 (now o))
  end.

Definition incrementCacheHit : M unit :=
  stats ← getCacheStats;
  let stats := mkStats (hits stats + 1) (misses stats) (lastReset stats) in
  CACHE_STATS_put o "stats" (JSON_stringify stats).

Definition incrementCacheMiss : M unit :=
  stats ← getCacheStats;
  let stats := mkStats (hits stats) (misses stats + 1) (lastReset stats) in
  CACHE_STATS_put o "stats" (JSON_stringify stats).

Definition resetCacheStats : M unit :=
  let stats := mkStats 0 0 (now o) in
  CACHE_STATS_put o "stats" (JSON_stringify stats).

(** [url.searchParams.get(name)]: the first value of that name. *)
Fixpoint searchParams_get (ps : list (string * string)) (name : string)
  : option string :=
  match ps with
  | [] => None
  | (k, v) :: ps' => if String.eqb k name then Some v else searchParams_get ps' name
  end.

(** The [try] block: launch, new page, load mermaid, evaluate, close. *)
Definition browser_render (mermaidString theme : string) : M (option string) :=
  _ ← emit (EvRender mermaidString theme);
  match puppeteer o mermaidString theme with
  | Rendered svg => mret svg
  | Faulted err => throw err
  end.

(** [!svg || !svg.startsWith('<svg')] *)
Definition malformed (svg : option string) : bool :=
  match svg with
  | None => true
  | Some s => String.eqb s "" || negb (String.prefix "<svg" s)
  end.

Definition svg_headers : list (string * string) :=
  [("Content-Type", "image/svg+xml");
   ("Cache-Control", "public, max-age=31536000")].

Definition json_headers : list (string * string) :=
  [("Content-Type", "application/json")].

(** [{ url: req.url, method: req.method }] *)
Definition entry_of (req : Request) : json :=
  JObj [("url", JStr (url req)); ("method", JStr (method req))].

(** [((stats.hits / total) * 100).toFixed(2)], or ['0.00'] *)
Definition hitRate_of (stats : CacheStats) (total : N) : string :=
  if (0 <? total)%N then
    Number.toFixed rt 2
      (Number.mul (Number.div (Number.of_N (hits stats)) (Number.of_N total))
                  (Number.of_N 100))
  else "0.00".

Definition efficiency_of (stats : CacheStats) (total : N) : string :=
  if (0 <? total)%N then
    Number.show rt (hits stats) +:+ "/" +:+ Number.show rt total
      +:+ " requests served from cache"
  else "No requests yet".

(** [`${mermaidString.substring(0, 100)}${mermaidString.length > 100 ? '...' : ''}`] *)
Definition excerpt (mermaidString : string) : string :=
  substring 0 100 mermaidString
    +:+ (if 100 <? String.length mermaidString then "..." else "").

(** [url.searchParams.get('theme') === 'dark' ? 'dark' : 'default'] *)
Definition theme_of (url' : URL) : string :=
  match searchParams_get (searchParams url') "theme" with
  | Some t => if String.eqb t "dark" then "dark" else "default"
  | None => "default"
  end.

Definition fetch (request : Request) : M Response :=
  let url' := new_URL rt (url request) in
  if String.eqb (pathname url') "/cache-stats" then
    stats ← getCacheStats;
    let total := (hits stats + misses stats)%N in
    let hitRate := hitRate_of stats total in
    mret (mkResponse 200
            (Json 2 (JObj [("hits", JNum (hits stats));
                           ("misses", JNum (misses stats));
                           ("lastReset", JStr (lastReset stats));
                           ("total", JNum total);
                           ("hitRate", JStr (hitRate +:+ "%"));
                           ("efficiency", JStr (efficiency_of stats total))]))
            json_headers)
  else if String.eqb (pathname url') "/cache-stats/reset" then
    _ ← resetCacheStats;
    mret (mkResponse 200
            (Json 0 (JObj [("message", JStr "Cache statistics reset")]))
            json_headers)
  else if String.eqb (pathname url') "/cache-entries" then
    keys ← cache_keys o;
    let entries := List.map entry_of keys in
    mret (mkResponse 200
            (Json 2 (JObj [("count", JNum (N.of_nat (List.length entries)));
                           ("entries", JArr (List.firstn 50 entries))]))
            json_headers)
  else if negb (String.eqb (pathname url') "/svg") then
    mret (mkResponse 404 (Text "Not found") [])
  else
    let compressed := searchParams_get (searchParams url') "mermaid" in
    if falsy compressed then
      mret (mkResponse 400 (Text "Missing mermaid parameter") [])
    else
    mermaidString ←
      call (decompressFromEncodedURIComponent rt (default "" compressed));
    if falsy mermaidString then
      mret (mkResponse 400 (Text "Failed to decompress mermaid parameter") [])
    else
    let mermaidString := default "" mermaidString in
    response ← cache_match o (url request);
    match response with
    | Some response =>
        (* Cache hit - increment counter and log *)
        _ ← incrementCacheHit;
        _ ← console_log ("Cache HIT for URL: " +:+ url request);
        mret response
    | None =>
        (* Cache miss - increment counter and log *)
        _ ← incrementCacheMiss;
        _ ← console_log ("Cache MISS for URL: " +:+ url request);
        _ ← console_log ("Mermaid diagram: " +:+ excerpt mermaidString);
        let theme := theme_of url' in
        r ← try_catch
              (svg ← browser_render mermaidString theme; mret (inr svg))
              (fun err =>
                 _ ← console_error "Error during browser rendering:" err;
                 mret (inl (mkResponse 500 (Text "Internal error") [])));
        match r with
        | inl early => mret early
        | inr svg =>
            if malformed svg then
              mret (mkResponse 500 (Text "Failed to render SVG") [])
            else
              let response :=
                mkResponse 200 (Text (default "" svg)) svg_headers in
              (* Store in cache and log *)
              _ ← ctx_waitUntil (CachePut request response);
              _ ← console_log ("Cached response for URL: " +:+ url request);
              mret response
        end
    end.

(** One request served to the end: the handler answers, then the promises
    it handed to [waitUntil] settle. *)
Definition serve (request : Request) (w : World) : Outcome Response * World :=
  let (r, w') := fetch request w in (r, settle o w').

End Worker.

(** A sequential execution: the requests are served one after the other,
    each with the platform behaviour of its time. *)
Fixpoint run (rt : Runtime) (steps : list (Oracle * Request)) (w : World) : World :=
  match steps with
  | [] => w
  | (o, request) :: rest => run rt rest (snd (serve rt o request w))
  end.

(** ** Observations on an execution *)

(** The effects performed between two worlds of one execution. *)
Definition new_events (w w' : World) : list Event :=
  drop (List.length (trace w)) (trace w').

Definition is_lookup (ev : Event) : bool :=
  match ev with
  | EvCacheMatch _ => true
  | _ => false
  end.

(** The number of cache lookups among some effects. *)
Definition lookups (evs : list Event) : nat :=
  List.length (List.filter is_lookup evs).

(** What a read of the stats store gives for a content of the KV
    namespace: the value of [getCacheStats], effects put aside. *)
Definition stats_of (o : Oracle) (m : gmap string kv_text) : Outcome CacheStats :=
  fst (getCacheStats o (mkWorld m [] [] [])).

(** A world after some more effects. *)
Definition logged (w : World) (evs : list Event) : World :=
  mkWorld (kv w) (cache w) (pending w) (trace w ++ evs).

(** The request passes the decoding step of the pipeline with diagram [d]:
    it is for [/svg], its [mermaid] parameter is present and not empty, and
    lz-string decompresses it to [d], which is not empty. *)
Definition decodes (rt : Runtime) (request : Request) (d : string) : Prop :=
  pathname (new_URL rt (url request)) = "/svg" /\
  exists c : string,
    searchParams_get (searchParams (new_URL rt (url request))) "mermaid" = Some c /\
    c <> "" /\ decompressFromEncodedURIComponent rt c = Returns (Some d) /\
    d <> "".

(** The renderer threw, or what it gave fails the check on its markup. *)
Definition render_fails (res : RenderResult) : bool :=
  match res with
  | Faulted _ => true
  | Rendered svg => malformed svg
  end.

(** The stats store and the cache lookup answer (no call rejects). *)
Definition stores_answer (o : Oracle) : Prop :=
  kv_get_fault o = false /\ kv_put_fault o = false /\ cache_match_fault o = false.

Definition is_reset (rt : Runtime) (request : Request) : Prop :=
  pathname (new_URL rt (url request)) = "/cache-stats/reset".

(** The platform of [o] with a stats store and a lookup that answer. *)
Definition answering (o : Oracle) : Oracle :=
  mkOracle (now o) false false false (cache_put_fault o) (cache_keys_fault o)
    (puppeteer o).

(** Store failures are absorbed, in the words of the specification: a
    failing lookup is treated as a miss (the handler answers as if the cache
    held nothing), failing stats calls are ignored (it answers as if they
    had been accepted), and so no such failure changes the response. *)
Definition absorbs_store_failures (rt : Runtime) : Prop :=
  forall (o : Oracle) (request : Request) (w : World),
    fst (fetch rt o request w) =
    fst (fetch rt (answering o) request
           (if cache_match_fault o
            then mkWorld (kv w) [] (pending w) (trace w)
            else w)).

(** Counter consistency, in the words of the specification: in every
    sequential execution that follows a reset, the record holds as many
    hits and misses together as lookups were performed. *)
Definition counts_every_lookup (rt : Runtime) : Prop :=
  forall (o0 : Oracle) (reset : Request) (steps : list (Oracle * Request))
         (w : World),
    is_reset rt reset ->
    kv_put_fault o0 = false ->
    Forall (fun step => ~ is_reset rt (snd step)) steps ->
    let w1 := snd (serve rt o0 reset w) in
    let w2 := run rt steps w1 in
    exists s : CacheStats,
      kv w2 !! "stats" = Some (Stringified s) /\
      (hits s + misses s)%N = N.of_nat (lookups (new_events w1 w2)).

(** ** The worker before cache statistics, the first [src/index.ts] *)

Module Legacy.

Section Worker.
Variable rt : Runtime.
Variable o : Oracle.

(** [url.searchParams.get('theme') || 'default'] *)
Definition theme_label (url' : URL) : string :=
  match searchParams_get (searchParams url') "theme" with
  | Some t => if String.eqb t "" then "default" else t
  | None => "default"
  end.

(** [`${mermaidString.substring(0, 50)}${mermaidString.length > 50 ? '...' : ''}`] *)
Definition excerpt (mermaidString : string) : string :=
  substring 0 50 mermaidString
    +:+ (if 50 <? String.length mermaidString then "..." else "").

Definition fetch (request : Request) : M Response :=
  let url' := new_URL rt (url request) in
  if negb (String.eqb (pathname url') "/svg") then
    mret (mkResponse 404 (Text "Not found") [])
  else
    let compressed := searchParams_get (searchParams url') "mermaid" in
    if falsy compressed then
      mret (mkResponse 400 (Text "Missing mermaid parameter") [])
    else
    mermaidString ←
      call (decompressFromEncodedURIComponent rt (default "" compressed));
    if falsy mermaidString then
      mret (mkResponse 400 (Text "Failed to decompress mermaid parameter") [])
    else
    let mermaidString := default "" mermaidString in
    response ← cache_match o (url request);
    match response with
    | Some response =>
        _ ← console_log ("CACHE HIT - " +:+ theme_label url' +:+ " theme");
        mret response
    | None =>
        _ ← console_log ("CACHE MISS - " +:+ theme_label url'
                           +:+ " theme, diagram: " +:+ excerpt mermaidString);
        let theme := theme_of url' in
        r ← try_catch
              (svg ← browser_render o mermaidString theme; mret (inr svg))
              (fun err =>
                 _ ← console_error "Error during browser rendering:" err;
                 mret (inl (mkResponse 500 (Text "Internal error") [])));
        match r with
        | inl early => mret early
        | inr svg =>
            if malformed svg then
              mret (mkResponse 500 (Text "Failed to render SVG") [])
            else
              let response :=
                mkResponse 200 (Text (default "" svg)) svg_headers in
              _ ← ctx_waitUntil (CachePut request response);
              mret response
        end
    end.

End Worker.

End Legacy.

(** ** Concurrent recordings *)

(** [incrementCacheHit] and [incrementCacheMiss] from their [await] of
    [getCacheStats] on: the increment of the record that was read, and the
    write. *)
Definition resume_hit (o : Oracle) (stats : CacheStats) : M unit :=
  let stats := mkStats (hits stats + 1) (misses stats) (lastReset stats) in
  CACHE_STATS_put o "stats" (JSON_stringify stats).

Definition resume_miss (o : Oracle) (stats : CacheStats) : M unit :=
  let stats := mkStats (hits stats) (misses stats + 1) (lastReset stats) in
  CACHE_STATS_put o "stats" (JSON_stringify stats).

(** Two recordings in flight at once, the second one reading before the
    first one has written: read, read, write, write. *)
Definition interleaved (o1 o2 : Oracle)
    (first second : CacheStats -> M unit) : M unit :=
  stats1 ← getCacheStats o1;
  stats2 ← getCacheStats o2;
  _ ← first stats1;
  second stats2.

(** The number of calls of the renderer among some effects. *)
Definition is_render (ev : Event) : bool :=
  match ev with
  | EvRender _ _ => true
  | _ => false
  end.

Definition renders (evs : list Event) : nat :=
  List.length (List.filter is_render evs).

(** ** What the cache holds *)

(** A response the pipeline builds from well-formed markup. *)
Definition is_image (response : Response) : bool :=
  match response with
  | mkResponse 200 (Text s) h =>
      String.prefix "<svg" s && bool_decide (h = svg_headers)
  | _ => false
  end.

(** ** Sample data *)

Module Sample.

Definition origin : string := "https://mermaid.example.workers.dev".

(** [compressToEncodedURIComponent] of ["graph TD; A-->B"] and of [""]. *)
Definition encoded_graph : string := "OYJwhgDgFgBAKgEQNwwIIFp0D4BCQ".
Definition encoded_empty : string := "Q".

(** A payload that is no output of the compressor.  lz-string reads the
    code 3 first, which is none of the codes 0, 1, 2 it expects there, and
    goes on with an undefined first entry; the next code read is the size
    of the dictionary, for which it evaluates [w + w.charAt(0)] with [w]
    undefined. *)
Definition encoded_broken : string := "zzzz".

Definition svg_href : string := origin +:+ "/svg?mermaid=" +:+ encoded_graph.
Definition dark_href : string := svg_href +:+ "&theme=dark".
Definition empty_href : string := origin +:+ "/svg?mermaid=" +:+ encoded_empty.
Definition broken_href : string := origin +:+ "/svg?mermaid=" +:+ encoded_broken.
Definition bare_href : string := origin +:+ "/svg".
Definition stats_href : string := origin +:+ "/cache-stats".
Definition reset_href : string := origin +:+ "/cache-stats/reset".
Definition entries_href : string := origin +:+ "/cache-entries".

(** The parse of the sample URLs. *)
Definition parse (href : string) : URL :=
  if String.eqb href svg_href then
    mkURL "/svg" [("mermaid", encoded_graph)]
  else if String.eqb href dark_href then
    mkURL "/svg" [("mermaid", encoded_graph); ("theme", "dark")]
  else if String.eqb href empty_href then
    mkURL "/svg" [("mermaid", encoded_empty)]
  else if String.eqb href broken_href then
    mkURL "/svg" [("mermaid", encoded_broken)]
  else if String.eqb href bare_href then mkURL "/svg" []
  else if String.eqb href stats_href then mkURL "/cache-stats" []
  else if String.eqb href reset_href then mkURL "/cache-stats/reset" []
  else if String.eqb href entries_href then mkURL "/cache-entries" []
  else mkURL "/" [].

(** lz-string on the sample payloads; any other payload is taken as one
    the library answers [null] for. *)
Definition decompress (compressed : string) : Outcome (option string) :=
  if String.eqb compressed encoded_graph then Returns (Some "graph TD; A-->B")
  else if String.eqb compressed encoded_empty then Returns (Some "")
  else if String.eqb compressed encoded_broken then Throws "TypeError"
  else Returns None.

(** Number printing is only asked for a value that is not finite or reaches
    [10^21]; none of the samples has one. *)
Definition rt : Runtime := mkRuntime parse decompress (fun _ => "NaN").

Definition svg : string := "<svg xmlns='http://www.w3.org/2000/svg'></svg>".

Definition clock : string := "2024-01-15T10:30:00.000Z".

(** The Workers runtime, where [cache.keys] is not implemented: every
    other store call answers and the browser renders. *)
Definition calm : Oracle :=
  mkOracle clock false false false false true (fun _ _ => Rendered (Some svg)).

Definition kv_get_down : Oracle :=
  mkOracle clock true false false false true (fun _ _ => Rendered (Some svg)).
Definition kv_put_down : Oracle :=
  mkOracle clock false true false false true (fun _ _ => Rendered (Some svg)).
Definition lookup_down : Oracle :=
  mkOracle clock false false true false true (fun _ _ => Rendered (Some svg)).
Definition store_down : Oracle :=
  mkOracle clock false false false true true (fun _ _ => Rendered (Some svg)).
Definition browser_down : Oracle :=
  mkOracle clock false false false false true (fun _ _ => Faulted "Navigation timeout").
Definition browser_html : Oracle :=
  mkOracle clock false false false false true (fun _ _ => Rendered (Some "<html></html>")).

(** A platform whose cache has [keys]. *)
Definition enumerable : Oracle :=
  mkOracle clock false false false false false (fun _ _ => Rendered (Some svg)).

Definition GET (href : string) : Request := mkRequest href "GET".

Definition fresh : World := mkWorld ∅ [] [] [].

Definition svg_response : Response :=
  mkResponse 200 (Text svg) svg_headers.

(** The world after one successful render of [svg_href]. *)
Definition warm : World :=
  mkWorld {[ "stats" := Stringified (mkStats 0 1 clock) ]}
          [(GET svg_href, svg_response)] [] [].

Definition with_stats (h m : N) : World :=
  mkWorld {[ "stats" := Stringified (mkStats h m clock) ]} [] [] [].

(** A cache of [n] entries. *)
Fixpoint entries (n : nat) : list (Request * Response) :=
  match n with
  | O => []
  | S n' => entries n' ++ [(GET (svg_href +:+ "&n=" +:+ Number.digits (N.of_nat n')), svg_response)]
  end.

Definition with_cache (n : nat) : World := mkWorld ∅ (entries n) [] [].

(** The warm world with a stats record that is not JSON. *)
Definition corrupt : World :=
  mkWorld {[ "stats" := Unparseable "{hits:" ]}
          [(GET svg_href, svg_response)] [] [].

Definition POST (href : string) : Request := mkRequest href "POST".

End Sample.

(** * Properties *)

Create HintDb worker discriminated.

#[local] Hint Unfold
  fetch serve getCacheStats incrementCacheHit incrementCacheMiss resetCacheStats
  browser_render CACHE_STATS_get CACHE_STATS_put cache_match cache_keys
  ctx_waitUntil console_log console_error emit try_catch throw call JSON_parse
  JSON_stringify mbind M_bind mret M_ret : worker.

(** Unfold the handler and the store calls. *)
Ltac exec := autounfold with worker; cbn beta iota.

(** Follow the handler along one of its branches. *)
Ltac branch :=
  match goal with
  | |- context [if ?b then _ else _] => destruct b eqn:?
  | |- context [match ?x with Some _ => _ | None => _ end] => destruct x eqn:?
  | |- context [match ?x with Rendered _ => _ | Faulted _ => _ end] => destruct x eqn:?
  | |- context [match ?x with Stringified _ => _ | Unparseable _ => _ end] => destruct x eqn:?
  end; cbn.

(** The effects of a finished branch, as a list. *)
Ltac events :=
  unfold new_events, logged; cbn [trace snd fst]; rewrite <- ?app_assoc;
  rewrite ?drop_app_length, ?drop_all; cbn [app].

Lemma new_events_app (w w' : World) (evs : list Event) :
  trace w' = trace w ++ evs -> new_events w w' = evs.
Proof. intros E. unfold new_events. rewrite E. apply drop_app_length. Qed.

Lemma new_events_same (w w' : World) :
  trace w' = trace w -> new_events w w' = [].
Proof. intros E. unfold new_events. rewrite E. apply drop_all. Qed.

(** ** The handler, path by path *)

(** An effect that was not performed: it is not in the list. *)
Ltac absent :=
  let H := fresh in
  intros H; exfalso; revert H; clear; cbn; intuition discriminate.


Section StoreCalls.
Variable o : Oracle.

Lemma getCacheStats_run (w : World) :
  getCacheStats o w = (stats_of o (kv w), logged w [EvKvGet "stats"]).
Proof.
  unfold stats_of, logged. exec. cbn. repeat branch; reflexivity.
Qed.

Lemma incrementCacheHit_run (w : World) :
  incrementCacheHit o w =
    match stats_of o (kv w) with
    | Returns s =>
        let counted := Stringified (mkStats (hits s + 1) (misses s) (lastReset s)) in
        if kv_put_fault o then
          (Throws "KV PUT failed",
           logged w [EvKvGet "stats"; EvKvPut "stats" counted])
        else
          (Returns tt,
           mkWorld (<["stats" := counted]> (kv w)) (cache w) (pending w)
             (trace w ++ [EvKvGet "stats"; EvKvPut "stats" counted]))
    | Throws e => (Throws e, logged w [EvKvGet "stats"])
    end.
Proof.
  unfold incrementCacheHit, mbind, M_bind. rewrite getCacheStats_run.
  destruct (stats_of o (kv w)); [|reflexivity].
  unfold CACHE_STATS_put, JSON_stringify, logged. cbn.
  rewrite <- !app_assoc. reflexivity.
Qed.

Lemma incrementCacheMiss_run (w : World) :
  incrementCacheMiss o w =
    match stats_of o (kv w) with
    | Returns s =>
        let counted := Stringified (mkStats (hits s) (misses s + 1) (lastReset s)) in
        if kv_put_fault o then
          (Throws "KV PUT failed",
           logged w [EvKvGet "stats"; EvKvPut "stats" counted])
        else
          (Returns tt,
           mkWorld (<["stats" := counted]> (kv w)) (cache w) (pending w)
             (trace w ++ [EvKvGet "stats"; EvKvPut "stats" counted]))
    | Throws e => (Throws e, logged w [EvKvGet "stats"])
    end.
Proof.
  unfold incrementCacheMiss, mbind, M_bind. rewrite getCacheStats_run.
  destruct (stats_of o (kv w)); [|reflexivity].
  unfold CACHE_STATS_put, JSON_stringify, logged. cbn.
  rewrite <- !app_assoc. reflexivity.
Qed.
End StoreCalls.

Section Pipeline.
Variable rt : Runtime.
Variable o : Oracle.

(** The pipeline after the decoding step, laid out by what the stores and
    the browser answer. *)
Lemma fetch_decoded (request : Request) (w : World) (d : string) :
  decodes rt request d ->
  let key := url request in
  let th := theme_of (new_URL rt key) in
  fetch rt o request w =
    if cache_match_fault o then
      (Throws "cache.match failed", logged w [EvCacheMatch key])
    else
      match cache_find key (cache w), stats_of o (kv w) with
      | _, Throws e => (Throws e, logged w [EvCacheMatch key; EvKvGet "stats"])
      | Some response, Returns s =>
          let counted := Stringified (mkStats (hits s + 1) (misses s) (lastReset s)) in
          if kv_put_fault o then
            (Throws "KV PUT failed",
             logged w [EvCacheMatch key; EvKvGet "stats"; EvKvPut "stats" counted])
          else
            (Returns response,
             mkWorld (<["stats" := counted]> (kv w)) (cache w) (pending w)
               (trace w ++ [EvCacheMatch key; EvKvGet "stats";
                            EvKvPut "stats" counted;
                            EvLog ("Cache HIT for URL: " +:+ key)]))
      | None, Returns s =>
          let counted := Stringified (mkStats (hits s) (misses s + 1) (lastReset s)) in
          if kv_put_fault o then
            (Throws "KV PUT failed",
             logged w [EvCacheMatch key; EvKvGet "stats"; EvKvPut "stats" counted])
          else
            let w1 :=
              mkWorld (<["stats" := counted]> (kv w)) (cache w) (pending w)
                (trace w ++ [EvCacheMatch key; EvKvGet "stats";
                             EvKvPut "stats" counted;
                             EvLog ("Cache MISS for URL: " +:+ key);
                             EvLog ("Mermaid diagram: " +:+ excerpt d);
                             EvRender d th]) in
            match puppeteer o d th with
            | Faulted err =>
                (Returns (mkResponse 500 (Text "Internal error") []),
                 logged w1 [EvError "Error during browser rendering:" err])
            | Rendered svg =>
                if malformed svg then
                  (Returns (mkResponse 500 (Text "Failed to render SVG") []), w1)
                else
                  let response :=
                    mkResponse 200 (Text (default "" svg)) svg_headers in
                  (Returns response,
                   mkWorld (kv w1) (cache w1)
                     (pending w1 ++ [CachePut request response])
                     (trace w1 ++ [EvLog ("Cached response for URL: " +:+ key)]))
            end
      end.
Proof.
  intros (Hpath & c & Hget & Hc & Hdec & Hd) key th. subst key th.
  apply String.eqb_neq in Hc, Hd.
  unfold fetch. rewrite Hpath, Hget.
  cbn [String.eqb Ascii.eqb Bool.eqb negb falsy default from_option id].
  rewrite Hc, Hdec. unfold mbind at 1. unfold M_bind at 1. unfold call.
  cbn [falsy default from_option id]. rewrite Hd.
  unfold mbind, M_bind, cache_match.
  destruct (cache_match_fault o); [reflexivity|].
  destruct (cache_find (url request) (cache w)) as [response|].
  - rewrite incrementCacheHit_run. cbn [kv].
    destruct (stats_of o (kv w)) as [s|e]; [|unfold logged; cbn; now rewrite <- app_assoc].
    cbn zeta. destruct (kv_put_fault o); unfold logged; cbn; now rewrite <- !app_assoc.
  - rewrite incrementCacheMiss_run. cbn [kv].
    destruct (stats_of o (kv w)) as [s|e]; [|unfold logged; cbn; now rewrite <- app_assoc].
    cbn zeta. destruct (kv_put_fault o); [unfold logged; cbn; now rewrite <- !app_assoc|].
    unfold try_catch, browser_render, console_log, console_error, ctx_waitUntil,
      emit, throw, mbind, M_bind, mret, M_ret, logged. cbn.
    destruct (puppeteer o d (theme_of (new_URL rt (url request)))) as [svg|err]; cbn.
    + destruct (malformed svg); cbn; now rewrite <- !app_assoc.
    + now rewrite <- !app_assoc.
Qed.

(** A request that does not pass the decoding step goes nowhere near the
    cache or the renderer: at most one call to the stats store, or the
    enumeration of the cache keys. *)
Lemma fetch_undecoded (request : Request) (w : World) :
  (forall d, ~ decodes rt request d) ->
  let w' := snd (fetch rt o request w) in
  cache w' = cache w /\ pending w' = pending w /\
  (new_events w w' = [] \/ new_events w w' = [EvKvGet "stats"] \/
   (exists v, new_events w w' = [EvKvPut "stats" v]) \/
   new_events w w' = [EvCacheKeys]) /\
  (~ is_reset rt request -> kv w' = kv w).
Proof.
  intros Hno. unfold fetch, is_reset.
  destruct (String.eqb_spec (pathname (new_URL rt (url request))) "/cache-stats") as [E1|E1].
  { unfold mbind, M_bind. rewrite getCacheStats_run.
    destruct (stats_of o (kv w)); cbn; events; auto 10. }
  destruct (String.eqb_spec (pathname (new_URL rt (url request))) "/cache-stats/reset") as [E2|E2].
  { exec. destruct (kv_put_fault o); cbn; events;
      (split; [reflexivity|]); (split; [reflexivity|]);
      (split; [right; right; left; eexists; reflexivity | intros H; contradiction]). }
  destruct (String.eqb_spec (pathname (new_URL rt (url request))) "/cache-entries") as [E3|E3].
  { exec. destruct (cache_keys_fault o); cbn; events; auto 10. }
  destruct (String.eqb_spec (pathname (new_URL rt (url request))) "/svg") as [E4|E4];
    cbn [negb]; [|cbn; events; auto 10].
  destruct (searchParams_get (searchParams (new_URL rt (url request))) "mermaid")
    as [c|] eqn:Hget; cbn [falsy]; [|cbn; events; auto 10].
  destruct (String.eqb_spec c "") as [Ec|Ec]; [cbn; events; auto 10|].
  cbn [default from_option id]. unfold call, mbind, M_bind.
  destruct (decompressFromEncodedURIComponent rt c) as [[d|]|e] eqn:Hdec;
    cbn [falsy]; [|cbn; events; auto 10|cbn; events; auto 10].
  destruct (String.eqb_spec d "") as [Ed|Ed]; [cbn; events; auto 10|].
  destruct (Hno d). split; [assumption|]. exists c. auto.
Qed.

(** Every request either passes the decoding step or does not. *)
Lemma decodes_or_not (request : Request) :
  (exists d, decodes rt request d) \/ (forall d, ~ decodes rt request d).
Proof.
  unfold decodes.
  destruct (String.eqb_spec (pathname (new_URL rt (url request))) "/svg") as [E|E];
    [|right; intros d [H _]; contradiction].
  destruct (searchParams_get (searchParams (new_URL rt (url request))) "mermaid")
    as [c|]; [|right; intros d (_ & c & [=] & _)].
  destruct (String.eqb_spec c "") as [Ec|Ec];
    [right; intros d (_ & c' & [= <-] & Hc & _); contradiction|].
  destruct (decompressFromEncodedURIComponent rt c) as [[d|]|e] eqn:Hdec;
    [|right; intros d (_ & c' & [= <-] & _ & Hd & _); congruence
     |right; intros d (_ & c' & [= <-] & _ & Hd & _); congruence].
  destruct (String.eqb_spec d "") as [Ed|Ed].
  - right. intros d' (_ & c' & [= <-] & _ & Hd & Hne). congruence.
  - left. exists d. split; [assumption|]. exists c. auto.
Qed.
End Pipeline.

(** ** The render pipeline *)

Section RenderPipeline.
Variable rt : Runtime.
Variable o : Oracle.

Lemma settle_nothing (w : World) :
  pending w = [] -> cache (settle o w) = cache w.
Proof. intros E. unfold settle. now rewrite E. Qed.

Lemma cache_find_store (request : Request) (response : Response)
    (c : list (Request * Response)) :
  cache_find (url request) (cache_store request response c) = Some response.
Proof.
  unfold cache_find, cache_store.
  induction c as [|entry c IH]; cbn.
  - unfold same_key. cbn. now rewrite String.eqb_refl.
  - destruct (same_key (url request) entry) eqn:E; cbn; [exact IH|].
    rewrite E. exact IH.
Qed.

(** The renderer is only reached along the miss path of a decoded
    request, after the miss was written to the stats store. *)
Lemma rendered_decoded (request : Request) (w : World) (d th : string) :
  In (EvRender d th) (new_events w (snd (fetch rt o request w))) ->
  decodes rt request d /\ th = theme_of (new_URL rt (url request)) /\
  cache_match_fault o = false /\ cache_find (url request) (cache w) = None /\
  kv_put_fault o = false /\ exists s, stats_of o (kv w) = Returns s.
Proof.
  destruct (decodes_or_not rt request) as [[d0 Hd0] | Hno].
  - rewrite (fetch_decoded rt o request w d0 Hd0).
    destruct (cache_match_fault o); [events; absent|].
    destruct (cache_find (url request) (cache w));
      destruct (stats_of o (kv w)) as [s|e]; try (events; absent);
      cbn zeta; destruct (kv_put_fault o); try (events; absent).
    assert (Hin : In (EvRender d th)
              [EvCacheMatch (url request); EvKvGet "stats";
               EvKvPut "stats" (Stringified (mkStats (hits s) (misses s + 1) (lastReset s)));
               EvLog ("Cache MISS for URL: " +:+ url request);
               EvLog ("Mermaid diagram: " +:+ excerpt d0);
               EvRender d0 (theme_of (new_URL rt (url request)))] ->
            decodes rt request d /\ th = theme_of (new_URL rt (url request)) /\
            false = false /\ @None Response = None /\ false = false /\
            exists s0, Returns s = Returns s0).
    { cbn. intros H. repeat destruct H as [H|H]; try discriminate; try contradiction.
      injection H as <- <-. eauto 10. }
    destruct (puppeteer o d0 (theme_of (new_URL rt (url request)))) as [svg|err].
    + destruct (malformed svg); events; intros H; apply Hin; cbn in *;
        repeat destruct H as [H|H]; try discriminate; try contradiction; auto 10.
    + events. intros H; apply Hin; cbn in *.
      repeat destruct H as [H|H]; try discriminate; try contradiction; auto 10.
  - intros H. exfalso. revert H.
    destruct (fetch_undecoded rt o request w Hno) as (_ & _ & Hev & _).
    destruct Hev as [-> | [-> | [[v ->] | ->]]]; cbn; intuition discriminate.
Qed.

(** C2. When the handler has reached the renderer (the effect
    [EvRender d th] is among those of the call) and the renderer throws, or
    gives something that is not markup starting with ["<svg"], the answer
    is 500 ("Internal error" for a fault, "Failed to render SVG" for
    malformed output); nothing is handed to [waitUntil] and the cache is
    as before, also once the request is served to the end; the stats
    record has its [misses] one above what the store read, and that write
    is among the effects that precede the call of the renderer. *)
Theorem failed_render_is_500 (request : Request) (w : World) (d th : string) :
  let r := fetch rt o request w in
  In (EvRender d th) (new_events w (snd r)) ->
  render_fails (puppeteer o d th) = true ->
  fst r = Returns (mkResponse 500
            (Text (match puppeteer o d th with
                   | Faulted _ => "Internal error"
                   | Rendered _ => "Failed to render SVG"
                   end)) []) /\
  pending (snd r) = pending w /\
  cache (snd r) = cache w /\
  (pending w = [] -> cache (snd (serve rt o request w)) = cache w) /\
  exists s : CacheStats,
    stats_of o (kv w) = Returns s /\
    let counted := Stringified (mkStats (hits s) (misses s + 1) (lastReset s)) in
    kv (snd r) !! "stats" = Some counted /\
    exists before after : list Event,
      new_events w (snd r) = before ++ EvRender d th :: after /\
      In (EvKvPut "stats" counted) before.
Proof.
  intros r Hin Hfail. subst r.
  destruct (rendered_decoded request w d th Hin)
    as (Hd & -> & Hmatch & Hfind & Hput & s & Hs).
  unfold serve. rewrite (fetch_decoded rt o request w d Hd).
  rewrite Hmatch, Hfind, Hs, Hput. cbn zeta.
  destruct (puppeteer o d (theme_of (new_URL rt (url request)))) as [svg|err];
    cbn in Hfail; [rewrite Hfail|]; cbn [fst snd pending cache kv logged].
  all: split; [reflexivity|]; split; [reflexivity|]; split; [reflexivity|].
  all: split; [intros E; rewrite settle_nothing by exact E; reflexivity|].
  all: exists s; split; [reflexivity|]; cbn zeta; split; [apply lookup_insert_eq|].
  - exists [EvCacheMatch (url request); EvKvGet "stats";
            EvKvPut "stats" (Stringified (mkStats (hits s) (misses s + 1) (lastReset s)));
            EvLog ("Cache MISS for URL: " +:+ url request);
            EvLog ("Mermaid diagram: " +:+ excerpt d)], [].
    split; [events; reflexivity | cbn; auto].
  - exists [EvCacheMatch (url request); EvKvGet "stats";
            EvKvPut "stats" (Stringified (mkStats (hits s) (misses s + 1) (lastReset s)));
            EvLog ("Cache MISS for URL: " +:+ url request);
            EvLog ("Mermaid diagram: " +:+ excerpt d)],
           [EvError "Error during browser rendering:" err].
    split; [events; reflexivity | cbn; auto].
Qed.

(** C5. When the handler has reached the renderer and the renderer gives
    well-formed markup [svg], the answer is 200 with [svg] as its body,
    [Content-Type: image/svg+xml] and
    [Cache-Control: public, max-age=31536000], the number of seconds of 365
    days; the store of that response under the request is handed to
    [waitUntil] and has not touched the cache when the handler answers;
    once it settles (the store answering, the request being a GET) a
    lookup of the request URL finds that response. *)
Theorem rendered_svg_is_served (request : Request) (w : World)
    (d th svg : string) :
  let r := fetch rt o request w in
  In (EvRender d th) (new_events w (snd r)) ->
  puppeteer o d th = Rendered (Some svg) ->
  malformed (Some svg) = false ->
  let response :=
    mkResponse 200 (Text svg)
      [("Content-Type", "image/svg+xml");
       ("Cache-Control", "public, max-age=31536000")] in
  fst r = Returns response /\
  "public, max-age=31536000"
    = "public, max-age=" +:+ Number.digits (365 * 24 * 60 * 60) /\
  pending (snd r) = pending w ++ [CachePut request response] /\
  cache (snd r) = cache w /\
  (pending w = [] -> cache_put_fault o = false -> method request = "GET" ->
   cache_find (url request) (cache (snd (serve rt o request w))) = Some response).
Proof.
  intros r Hin Hsvg Hok response. subst r.
  destruct (rendered_decoded request w d th Hin)
    as (Hd & -> & Hmatch & Hfind & Hput & s & Hs).
  unfold serve. rewrite (fetch_decoded rt o request w d Hd).
  rewrite Hmatch, Hfind, Hs, Hput. cbn zeta. rewrite Hsvg, Hok.
  cbn [fst snd pending cache kv logged default from_option id].
  change (mkResponse 200 (Text svg) svg_headers) with response.
  split; [reflexivity|]; split; [reflexivity|]; split; [reflexivity|];
    split; [reflexivity|].
  intros Hp Hstore Hget. unfold settle. cbn [pending cache kv trace].
  rewrite Hp. cbn [app fold_left settle_task]. rewrite Hstore, Hget. cbn.
  apply cache_find_store.
Qed.

(** A lookup is only made for a decoded request, under its own URL. *)
Lemma looked_up_decoded (request : Request) (w : World) (key : string) :
  In (EvCacheMatch key) (new_events w (snd (fetch rt o request w))) ->
  key = url request /\ exists d, decodes rt request d.
Proof.
  destruct (decodes_or_not rt request) as [[d Hd] | Hno].
  - intros Hin. split; [|eauto]. revert Hin.
    rewrite (fetch_decoded rt o request w d Hd).
    assert (Hhead : forall rest,
              In (EvCacheMatch key) (EvCacheMatch (url request) :: rest) ->
              (forall k, ~ In (EvCacheMatch k) rest) -> key = url request).
    { intros rest [[= <-] | H] Hrest; [reflexivity | destruct (Hrest _ H)]. }
    destruct (cache_match_fault o);
      [events; intros H; apply (Hhead _ H); intros k; absent|].
    destruct (cache_find (url request) (cache w));
      destruct (stats_of o (kv w)) as [s|e]; cbn zeta;
      try destruct (kv_put_fault o);
      try destruct (puppeteer o d (theme_of (new_URL rt (url request)))) as [svg|err];
      try destruct (malformed svg);
      events; intros H; apply (Hhead _ H); intros k; absent.
  - intros H. exfalso. revert H.
    destruct (fetch_undecoded rt o request w Hno) as (_ & _ & Hev & _).
    destruct Hev as [-> | [-> | [[v ->] | ->]]]; cbn; intuition discriminate.
Qed.

(** X16. The hit path.  When the handler has looked the request URL up and
    the cache holds [cached] for it, the first thing it does is call the stats
    store to record the hit; it never calls the renderer, hands nothing to
    [waitUntil] and leaves the cache as it is; a response it gives is
    [cached] itself, status, body and headers; and when the stats store
    answers (the read gives [s], the write is accepted) it does give it,
    after writing [hits s + 1] and logging the hit. *)
Theorem cache_hit_is_served (request : Request) (w : World) (cached : Response) :
  let r := fetch rt o request w in
  let evs := new_events w (snd r) in
  In (EvCacheMatch (url request)) evs ->
  cache_match_fault o = false ->
  cache_find (url request) (cache w) = Some cached ->
  (exists rest, evs = EvCacheMatch (url request) :: EvKvGet "stats" :: rest) /\
  (forall d th, ~ In (EvRender d th) evs) /\
  pending (snd r) = pending w /\
  cache (snd r) = cache w /\
  (forall response, fst r = Returns response -> response = cached) /\
  (forall s, stats_of o (kv w) = Returns s -> kv_put_fault o = false ->
     let counted := Stringified (mkStats (hits s + 1) (misses s) (lastReset s)) in
     fst r = Returns cached /\
     kv (snd r) !! "stats" = Some counted /\
     evs = [EvCacheMatch (url request); EvKvGet "stats"; EvKvPut "stats" counted;
            EvLog ("Cache HIT for URL: " +:+ url request)]).
Proof.
  intros r evs Hin Hmatch Hfind. subst evs r.
  destruct (looked_up_decoded request w _ Hin) as (_ & d & Hd).
  clear Hin. rewrite (fetch_decoded rt o request w d Hd).
  rewrite Hmatch, Hfind.
  destruct (stats_of o (kv w)) as [s|e]; cbn zeta;
    [destruct (kv_put_fault o)|]; cbn [fst snd]; events.
  all: split; [eexists; reflexivity|].
  all: split; [intros d' th'; absent|].
  all: split; [reflexivity|]; split; [reflexivity|].
  all: split; [intros response [= <-]; reflexivity || intros response [=]|].
  all: intros s' [= <-] Hput; try discriminate.
  cbn zeta. split; [reflexivity|]. split; [apply lookup_insert_eq | reflexivity].
Qed.

(** C4, where the code departs from it.  The recording of the hit is
    awaited, outside any [try]: when the cache holds a response for the
    request URL and the stats store rejects the read or the write of the
    recording, the handler rejects and the caller does not get the cached
    response; nothing is logged. *)
Theorem cache_hit_is_lost_with_the_recording (request : Request) (w : World)
    (cached : Response) :
  let r := fetch rt o request w in
  let evs := new_events w (snd r) in
  In (EvCacheMatch (url request)) evs ->
  cache_match_fault o = false ->
  cache_find (url request) (cache w) = Some cached ->
  kv_get_fault o = true \/ kv_put_fault o = true ->
  (exists e, fst r = Throws e) /\
  (forall msg, ~ In (EvLog msg) evs).
Proof.
  intros r evs Hin Hmatch Hfind Hfault. subst evs r.
  destruct (looked_up_decoded request w _ Hin) as (_ & d & Hd).
  clear Hin. rewrite (fetch_decoded rt o request w d Hd).
  rewrite Hmatch, Hfind.
  assert (Hread : kv_get_fault o = true -> exists e, stats_of o (kv w) = Throws e).
  { intros E. unfold stats_of. exec. rewrite E. eauto. }
  destruct (stats_of o (kv w)) as [s|e] eqn:Hs; cbn zeta.
  - destruct Hfault as [E|E]; [destruct (Hread E) as [e [=]]|].
    rewrite E. cbn [fst snd]. events. split; [eauto | intros msg; absent].
  - cbn [fst snd]. events. split; [eauto | intros msg; absent].
Qed.
End RenderPipeline.

(** ** Store failures *)

Section Failures.
Variable rt : Runtime.
Variable o : Oracle.

Lemma stats_of_fault (m : gmap string kv_text) :
  kv_get_fault o = true -> stats_of o m = Throws "KV GET failed".
Proof. intros E. unfold stats_of. exec. now rewrite E. Qed.

Lemma stats_of_answer (m : gmap string kv_text) (s : CacheStats) :
  stats_of o m = Returns s -> kv_get_fault o = false.
Proof.
  unfold stats_of. exec. destruct (kv_get_fault o); [discriminate | reflexivity].
Qed.

(** The handler never touches the cache itself, and hands over at most
    one store. *)
Lemma fetch_cache (request : Request) (w : World) :
  cache (snd (fetch rt o request w)) = cache w.
Proof.
  destruct (decodes_or_not rt request) as [[d Hd] | Hno].
  - rewrite (fetch_decoded rt o request w d Hd).
    destruct (cache_match_fault o); [reflexivity|].
    destruct (cache_find (url request) (cache w));
      destruct (stats_of o (kv w)) as [s|e]; cbn zeta;
      try destruct (kv_put_fault o);
      try destruct (puppeteer o d (theme_of (new_URL rt (url request)))) as [svg|err];
      try destruct (malformed svg); reflexivity.
  - now destruct (fetch_undecoded rt o request w Hno) as (? & _).
Qed.

Lemma settle_task_faulty (w : World) (t : Task) :
  cache_put_fault o = true -> cache (settle_task o w t) = cache w.
Proof. intros E. destruct t. cbn. now rewrite E. Qed.

Lemma settle_faulty (w : World) :
  cache_put_fault o = true -> cache (settle o w) = cache w.
Proof.
  intros E. unfold settle.
  change (cache w) with (cache (mkWorld (kv w) (cache w) [] (trace w))) at 2.
  generalize (mkWorld (kv w) (cache w) [] (trace w)).
  induction (pending w) as [|t ts IH]; intros w0; cbn; [reflexivity|].
  rewrite IH. now apply settle_task_faulty.
Qed.

End Failures.

(** Whether [cache.put] rejects is not read by the handler. *)
Lemma fetch_ignores_store_fault (rt : Runtime) (o o' : Oracle)
    (request : Request) (w : World) :
  now o' = now o -> kv_get_fault o' = kv_get_fault o ->
  kv_put_fault o' = kv_put_fault o -> cache_match_fault o' = cache_match_fault o ->
  cache_keys_fault o' = cache_keys_fault o -> puppeteer o' = puppeteer o ->
  fetch rt o' request w = fetch rt o request w.
Proof.
  destruct o, o'. cbn. intros -> -> -> -> -> ->. reflexivity.
Qed.

Section Absorption.
Variable rt : Runtime.
Variable o : Oracle.

(** C1, amended.  A rejected cache lookup is not taken for a miss: the
    handler does not catch it, does nothing after it (no call of the stats
    store, no log, no renderer) and rejects, so the caller gets no response
    from it.  The store into the cache, which runs under [waitUntil], fails
    silently: whether it rejects changes neither the response nor, when it
    does reject, the cache. *)
Theorem lookup_failure_reaches_the_caller (request : Request) (w : World) :
  let r := fetch rt o request w in
  let evs := new_events w (snd r) in
  (forall key, In (EvCacheMatch key) evs -> cache_match_fault o = true ->
     fst r = Throws "cache.match failed" /\ evs = [EvCacheMatch key]) /\
  (forall o' : Oracle,
     now o' = now o -> kv_get_fault o' = kv_get_fault o ->
     kv_put_fault o' = kv_put_fault o ->
     cache_match_fault o' = cache_match_fault o ->
     cache_keys_fault o' = cache_keys_fault o -> puppeteer o' = puppeteer o ->
     fst (serve rt o' request w) = fst r) /\
  (cache_put_fault o = true -> cache (snd (serve rt o request w)) = cache w).
Proof.
  intros r evs. subst evs r.
  split; [|split].
  - intros key Hin Hf. destruct (looked_up_decoded rt o request w key Hin) as (-> & d & Hd).
    revert Hin. rewrite (fetch_decoded rt o request w d Hd), Hf. events. auto.
  - intros o' H1 H2 H3 H4 H5 H6. unfold serve.
    rewrite (fetch_ignores_store_fault rt o o' request w H1 H2 H3 H4 H5 H6).
    now destruct (fetch rt o request w).
  - intros Hf. unfold serve.
    pose proof (fetch_cache rt o request w) as Hc.
    destruct (fetch rt o request w) as [r w']. cbn [snd] in *.
    now rewrite settle_faulty.
Qed.
End Absorption.

(** C1, as the specification has it, fails: with a lookup that rejects, the
    handler does not go on as for a miss (which would render the diagram
    and answer with the image), it gives no response. *)
Lemma failed_lookup_is_not_a_miss : ~ absorbs_store_failures Sample.rt.
Proof.
  intros H.
  specialize (H Sample.lookup_down (Sample.GET Sample.svg_href) Sample.warm).
  vm_compute in H. discriminate H.
Qed.

(** ** Decoding *)

Section Decoding.
Variable rt : Runtime.
Variable o : Oracle.

(** X15. A [/svg] request whose [mermaid] parameter is absent, empty, or one
    for which lz-string gives [null] is answered 400 and leaves the world
    as it was: the KV namespace, the cache, the pending promises and the
    trace of effects are unchanged, so there was no stats update, no lookup
    and no store. *)
Theorem undecodable_request_is_400 (request : Request) (w : World) :
  let ps := searchParams (new_URL rt (url request)) in
  pathname (new_URL rt (url request)) = "/svg" ->
  (searchParams_get ps "mermaid" = None \/
   searchParams_get ps "mermaid" = Some "" \/
   exists c, searchParams_get ps "mermaid" = Some c /\
             decompressFromEncodedURIComponent rt c = Returns None) ->
  exists msg,
    fetch rt o request w = (Returns (mkResponse 400 (Text msg) []), w) /\
    (msg = "Missing mermaid parameter" \/
     msg = "Failed to decompress mermaid parameter").
Proof.
  intros ps Hpath Hbad. subst ps. exec. unfold call. rewrite Hpath. cbn.
  destruct Hbad as [E | [E | (c & E & Hc)]]; rewrite E; cbn.
  - eexists; split; [reflexivity | now left].
  - eexists; split; [reflexivity | now left].
  - destruct (String.eqb c ""); cbn.
    + eexists; split; [reflexivity | now left].
    + rewrite Hc. cbn. eexists; split; [reflexivity | now right].
Qed.

(** C3, where the code departs from it.  The call of lz-string stands
    outside any [try]: for a [mermaid] parameter on which the library
    throws instead of giving [null], the handler rejects with what the
    library threw and the caller gets no 400.  The world is as it was: no
    stats update, no lookup, no store. *)
Theorem throwing_payload_rejects (request : Request) (w : World) (c e : string) :
  pathname (new_URL rt (url request)) = "/svg" ->
  searchParams_get (searchParams (new_URL rt (url request))) "mermaid" = Some c ->
  c <> "" ->
  decompressFromEncodedURIComponent rt c = Throws e ->
  fetch rt o request w = (Throws e, w).
Proof.
  intros Hpath Hget Hc Hdec. exec. unfold call. rewrite Hpath, Hget. cbn.
  apply String.eqb_neq in Hc. rewrite Hc, Hdec. reflexivity.
Qed.

(** C10. A [mermaid] parameter that is a valid encoding of the empty
    string is refused like a corrupt one: the answer is 400 "Failed to
    decompress mermaid parameter" and nothing else happens.  So the decoding
    step does not give back the empty diagram that was encoded: on no world
    and with no platform behaviour is the renderer called with it. *)
Theorem empty_diagram_is_400 (request : Request) (w : World) (c : string) :
  pathname (new_URL rt (url request)) = "/svg" ->
  searchParams_get (searchParams (new_URL rt (url request))) "mermaid" = Some c ->
  c <> "" ->
  decompressFromEncodedURIComponent rt c = Returns (Some "") ->
  fetch rt o request w =
    (Returns (mkResponse 400 (Text "Failed to decompress mermaid parameter") []), w) /\
  forall (o' : Oracle) (w' : World) (th : string),
    ~ In (EvRender "" th) (new_events w' (snd (fetch rt o' request w'))).
Proof.
  intros Hpath Hget Hc Hdec. split.
  - exec. unfold call. rewrite Hpath, Hget. cbn.
    apply String.eqb_neq in Hc. rewrite Hc. rewrite Hdec. reflexivity.
  - intros o' w' th Hin.
    destruct (rendered_decoded rt o' request w' "" th Hin) as ((_ & c' & _ & _ & _ & Hd) & _).
    now apply Hd.
Qed.

End Decoding.

(** ** Number printing *)

Section Strings.

Lemma append_cons (c : ascii) (s t : string) :
  String c s +:+ t = String c (s +:+ t).
Proof. reflexivity. Qed.

Lemma length_append (s t : string) :
  String.length (s +:+ t) = String.length s + String.length t.
Proof.
  induction s as [|c s IH]; [reflexivity|].
  rewrite append_cons. cbn. now rewrite IH.
Qed.

Lemma length_zeros (k : nat) : String.length (Number.zeros k) = k.
Proof. induction k as [|k IH]; cbn; [reflexivity | now rewrite IH]. Qed.

Lemma substring_all (s : string) : substring 0 (String.length s) s = s.
Proof. induction s as [|c s IH]; cbn; [reflexivity | now rewrite IH]. Qed.

Lemma length_substring (s : string) :
  forall i n, i + n <= String.length s -> String.length (substring i n s) = n.
Proof.
  induction s as [|c s IH]; intros [|i] [|n] H; cbn in *; try reflexivity; try lia.
  - rewrite (IH 0 n); [reflexivity | lia].
  - apply (IH i 0); lia.
  - apply (IH i (S n)); lia.
Qed.

Lemma substring_split (s : string) :
  forall k, k <= String.length s ->
    substring 0 k s +:+ substring k (String.length s - k) s = s.
Proof.
  induction s as [|c s IH]; intros [|k] H; cbn in *; try reflexivity; try lia.
  - now rewrite substring_all.
  - rewrite append_cons, IH; [reflexivity | lia].
Qed.

End Strings.

Section Printing.

Local Open Scope Z_scope.

Lemma digits_eq (n : N) :
  Number.digits n = NilEmpty.string_of_uint (N.to_uint n).
Proof.
  unfold Number.digits, NilZero.string_of_uint.
  destruct (N.to_uint n) eqn:E; try reflexivity.
  destruct n; [discriminate|]. now apply DecimalPos.Unsigned.to_uint_nonnil in E.
Qed.

Lemma digits_nonempty (n : N) : Number.digits n <> "".
Proof.
  rewrite digits_eq. intros E.
  assert (H : N.to_uint n = Decimal.Nil) by (destruct (N.to_uint n); cbn in E; congruence).
  destruct n; [discriminate|]. now apply DecimalPos.Unsigned.to_uint_nonnil in H.
Qed.

Lemma value_digits (n : N) : Number.value (Number.digits n) = Some n.
Proof.
  unfold Number.value. rewrite digits_eq, NilEmpty.usu.
  now rewrite DecimalN.Unsigned.of_to.
Qed.

Lemma value_zeros (k : nat) (s : string) (n : N) :
  Number.value s = Some n -> Number.value (Number.zeros k +:+ s) = Some n.
Proof.
  intros Hv. induction k as [|k IH]; [exact Hv|].
  cbn [Number.zeros]. rewrite append_cons.
  unfold Number.value in *. cbn [NilEmpty.uint_of_string].
  destruct (NilEmpty.uint_of_string (Number.zeros k +:+ s)) as [d|]; [|discriminate].
  cbn. exact IH.
Qed.

Lemma nearest_scaled_nonneg (m : positive) (e : Z) :
  0 <= Number.nearest_scaled 2 m e.
Proof.
  unfold Number.nearest_scaled. destruct (0 <=? e) eqn:E.
  - apply Z.leb_le in E. assert (0 < 2 ^ e) by (apply Z.pow_pos_nonneg; lia). nia.
  - apply Z.leb_gt in E. apply Z.div_pos.
    + assert (0 < 2 ^ (- e)) by (apply Z.pow_pos_nonneg; lia). cbn. lia.
    + apply Z.pow_pos_nonneg; lia.
Qed.

Lemma nearest_scaled_nearest (m : positive) (e : Z) :
  Number.nearest_hundredths m e (Z.to_N (Number.nearest_scaled 2 m e)).
Proof.
  unfold Number.nearest_hundredths.
  rewrite Z2N.id by apply nearest_scaled_nonneg.
  unfold Number.nearest_scaled. destruct (0 <=? e) eqn:E.
  - apply Z.leb_le in E.
    rewrite (Z.max_l 0 (- e)), (Z.max_r 0 e) by lia.
    change (10 ^ Z.of_N 2) with 100. change (2 ^ 0) with 1.
    replace (Z.pos m * 2 ^ e * 100 * 1 - 100 * Z.pos m * 2 ^ e) with 0 by ring.
    cbn. lia.
  - apply Z.leb_gt in E.
    rewrite (Z.max_r 0 (- e)), (Z.max_l 0 e) by lia.
    change (10 ^ Z.of_N 2) with 100. change (2 ^ 0) with 1.
    replace (1 - e) with (Z.succ (- e)) by lia.
    rewrite Z.pow_succ_r by lia.
    set (k := 2 ^ (- e)). assert (Hk : 0 < k) by (apply Z.pow_pos_nonneg; lia).
    set (x := 2 * Z.pos m * 100 + k).
    pose proof (Z.mul_div_le x (2 * k) ltac:(lia)) as Hlo.
    pose proof (Z.mul_succ_div_gt x (2 * k) ltac:(lia)) as Hhi.
    set (q := x / (2 * k)) in *. subst x. lia.
Qed.

Lemma fixed_digits_two (n : N) :
  exists a b : string,
    Number.fixed_digits 2 n = a +:+ "." +:+ b /\
    a <> "" /\ String.length b = 2%nat /\ Number.value (a +:+ b) = Some n.
Proof.
  unfold Number.fixed_digits. cbn [N.eqb N.to_nat Pos.to_nat Pos.iter_op Nat.add].
  set (m := Number.zeros (3 - String.length (Number.digits n)) +:+ Number.digits n).
  assert (Hm : (3 <= String.length m)%nat).
  { subst m. rewrite length_append, length_zeros. lia. }
  exists (substring 0 (String.length m - 2) m), (substring (String.length m - 2) 2 m).
  repeat split.
  - intros E. apply (f_equal String.length) in E.
    rewrite length_substring in E by lia. cbn in E. lia.
  - apply length_substring. lia.
  - assert (E : substring (String.length m - 2) 2 m =
                substring (String.length m - 2)
                  (String.length m - (String.length m - 2)) m)
      by (f_equal; lia).
    rewrite E, substring_split by lia. subst m. apply value_zeros, value_digits.
Qed.

Lemma toFixed_two_decimals (rt : Runtime) (x : spec_float) :
  Number.plain x = true -> Number.two_decimals (Number.toFixed rt 2 x) x.
Proof.
  destruct x as [s|s| |s m e];
    cbn [Number.toFixed Number.plain Number.two_decimals]; try discriminate.
  - reflexivity.
  - intros Hp. apply negb_true_iff in Hp. rewrite Hp.
    destruct (fixed_digits_two (Z.to_N (Number.nearest_scaled 2 m e)))
      as (a & b & Hfix & Ha & Hb & Hv).
    exists a, b, (Z.to_N (Number.nearest_scaled 2 m e)).
    rewrite Hfix. repeat split; auto. apply nearest_scaled_nearest.
Qed.

End Printing.

Section StatsStore.
Variable rt : Runtime.

(** C8. Whatever the KV namespace held, after [resetCacheStats] a read
    gives [hits = 0], [misses = 0] and the time of the reset as
    [lastReset]; one [incrementCacheHit] after the reset makes a read give
    [hits = 1, misses = 0], one [incrementCacheMiss] makes it give
    [hits = 0, misses = 1] (the store calls being answered). *)
Theorem reset_then_count (o1 o2 o3 : Oracle) (w : World) :
  kv_put_fault o1 = false ->
  kv_get_fault o2 = false ->
  kv_get_fault o3 = false -> kv_put_fault o3 = false ->
  let w1 := snd (resetCacheStats o1 w) in
  fst (getCacheStats o2 w1) = Returns (mkStats 0 0 (now o1)) /\
  fst (getCacheStats o2 (snd (incrementCacheHit o3 w1)))
    = Returns (mkStats 1 0 (now o1)) /\
  fst (getCacheStats o2 (snd (incrementCacheMiss o3 w1)))
    = Returns (mkStats 0 1 (now o1)).
Proof.
  intros H1 H2 H3 H3' w1. subst w1. exec.
  repeat (progress (rewrite ?H1, ?H2, ?H3, ?H3', ?lookup_insert_eq; cbn)).
  auto.
Qed.

(** C6. For every stats record [s] read from the store, [/cache-stats]
    answers with the record, [total = hits + misses] and
    [hitRate = rate%], where [rate] is ["0.00"] when [total = 0] (no
    division takes place) and otherwise [((hits / total) * 100).toFixed(2)]
    computed in binary64, which for a finite quotient is written with
    exactly two decimal places, the nearest hundredth; for
    [{hits: 45, misses: 12}] the total is 57 and the rate ["78.95"]. *)
Theorem cache_stats_view (o : Oracle) (request : Request) (w w1 : World)
    (s : CacheStats) :
  pathname (new_URL rt (url request)) = "/cache-stats" ->
  getCacheStats o w = (Returns s, w1) ->
  let total := (hits s + misses s)%N in
  let ratio :=
    Number.mul (Number.div (Number.of_N (hits s)) (Number.of_N total))
               (Number.of_N 100) in
  exists rate eff : string,
    fetch rt o request w =
      (Returns (mkResponse 200
         (Json 2 (JObj [("hits", JNum (hits s)); ("misses", JNum (misses s));
                        ("lastReset", JStr (lastReset s));
                        ("total", JNum total);
                        ("hitRate", JStr (rate +:+ "%"));
                        ("efficiency", JStr eff)]))
         [("Content-Type", "application/json")]), w1) /\
    (total = 0%N -> rate = "0.00") /\
    (total <> 0%N -> rate = Number.toFixed rt 2 ratio) /\
    (total <> 0%N -> Number.plain ratio = true -> Number.two_decimals rate ratio) /\
    (hits s = 45%N -> misses s = 12%N -> total = 57%N /\ rate = "78.95").
Proof.
  intros Hpath Hget total ratio.
  exists (hitRate_of rt s total), (efficiency_of rt s total).
  split; [|split; [|split; [|split]]].
  - unfold fetch. rewrite Hpath. cbn. unfold mbind, M_bind. now rewrite Hget.
  - intros E. unfold hitRate_of. now rewrite E.
  - intros E. unfold hitRate_of.
    destruct (N.ltb_spec 0 total); [reflexivity | lia].
  - intros E Hp. unfold hitRate_of.
    destruct (N.ltb_spec 0 total); [| lia]. now apply toFixed_two_decimals.
  - intros Eh Em. subst total. unfold hitRate_of. rewrite Eh, Em. split; reflexivity.
Qed.

(** Where the cache of the platform has [keys]: [/cache-entries] answers
    with [count], the number of keys of the cache, whatever it is, and with
    [entries], the URL and the method of each of the first 50 of them
    ([min 50 count] entries): none for an empty cache, 50 of the 73 for a
    cache of 73. *)
Theorem cache_entries_listing (o : Oracle) (request : Request) (w : World) :
  pathname (new_URL rt (url request)) = "/cache-entries" ->
  cache_keys_fault o = false ->
  let keys := List.map fst (cache w) in
  let listed :=
    List.map (fun req => JObj [("url", JStr (url req)); ("method", JStr (method req))])
      (List.firstn 50 keys) in
  fst (fetch rt o request w) =
    Returns (mkResponse 200
      (Json 2 (JObj [("count", JNum (N.of_nat (List.length keys)));
                     ("entries", JArr listed)]))
      [("Content-Type", "application/json")]) /\
  List.length listed = Nat.min 50 (List.length keys) /\
  (List.length keys = 0%nat -> listed = []) /\
  (List.length keys = 73%nat ->
     List.length listed = 50%nat /\
     N.of_nat (List.length keys) = 73%N) /\
  cache (snd (fetch rt o request w)) = cache w.
Proof.
  intros Hpath Hkeys keys listed. split; [|split; [|split; [|split]]].
  - exec. rewrite Hpath, Hkeys. cbn. rewrite length_map.
    subst listed keys. unfold entry_of. now rewrite firstn_map.
  - subst listed. now rewrite length_map, length_firstn.
  - intros E. subst listed. destruct keys; [reflexivity | discriminate].
  - intros E. subst listed. rewrite length_map, length_firstn, E. split; reflexivity.
  - exec. rewrite Hpath, Hkeys. reflexivity.
Qed.

(** C9, where the code departs from it.  The endpoint rests on
    [cache.keys()], which the cache of the Workers runtime does not have:
    there the call rejects, outside any [try], and the handler rejects with
    it; the caller gets neither a count nor a list, whatever the cache
    holds. *)
Theorem cache_entries_needs_keys (o : Oracle) (request : Request) (w : World) :
  pathname (new_URL rt (url request)) = "/cache-entries" ->
  cache_keys_fault o = true ->
  fetch rt o request w = (Throws "cache.keys failed", logged w [EvCacheKeys]).
Proof.
  intros Hpath Hkeys. exec. rewrite Hpath, Hkeys. reflexivity.
Qed.
End StatsStore.

(** ** Counting lookups *)

Section Counting.
Variable rt : Runtime.

Lemma lookups_app (evs evs' : list Event) :
  lookups (evs ++ evs') = lookups evs + lookups evs'.
Proof. unfold lookups. now rewrite List.filter_app, length_app. Qed.

Lemma new_events_trans (w w1 w2 : World) :
  (exists evs, trace w1 = trace w ++ evs) ->
  (exists evs, trace w2 = trace w1 ++ evs) ->
  new_events w w2 = new_events w w1 ++ new_events w1 w2 /\
  exists evs, trace w2 = trace w ++ evs.
Proof.
  intros [evs1 E1] [evs2 E2]. split.
  - rewrite (new_events_app w1 w2 evs2 E2), (new_events_app w w1 evs1 E1).
    apply new_events_app. now rewrite E2, E1, <- app_assoc.
  - exists (evs1 ++ evs2). now rewrite E2, E1, <- app_assoc.
Qed.

Lemma stats_of_stringified (o : Oracle) (m : gmap string kv_text) (s : CacheStats) :
  kv_get_fault o = false -> m !! "stats" = Some (Stringified s) ->
  stats_of o m = Returns s.
Proof. intros Hf Hm. unfold stats_of. exec. cbn. now rewrite Hf, Hm. Qed.

Lemma settle_tasks_stats (o : Oracle) (ts : list Task) :
  forall w0 : World,
    kv (fold_left (settle_task o) ts w0) = kv w0 /\
    exists evs, trace (fold_left (settle_task o) ts w0) = trace w0 ++ evs /\
                lookups evs = 0.
Proof.
  induction ts as [|t ts IH]; intros w0; cbn [fold_left].
  - split; [reflexivity|]. exists []. now rewrite app_nil_r.
  - destruct (IH (settle_task o w0 t)) as (Hkv & evs & Htr & Hl).
    rewrite Hkv, Htr. destruct t as [request response]. cbn.
    destruct (cache_put_fault o || negb (method request =? "GET")%string); cbn;
      (split; [reflexivity|]); exists (EvCachePut (url request) :: evs);
      rewrite <- app_assoc; (split; [reflexivity|]); exact Hl.
Qed.

(** Settling the pending stores leaves the KV namespace alone and makes
    no lookup. *)
Lemma settle_stats (o : Oracle) (w : World) :
  kv (settle o w) = kv w /\
  exists evs, trace (settle o w) = trace w ++ evs /\ lookups evs = 0.
Proof.
  unfold settle.
  apply (settle_tasks_stats o (pending w) (mkWorld (kv w) (cache w) [] (trace w))).
Qed.

(** The handler only adds to the trace. *)
Lemma fetch_extends (o : Oracle) (request : Request) (w : World) :
  exists evs, trace (snd (fetch rt o request w)) = trace w ++ evs.
Proof.
  exists (new_events w (snd (fetch rt o request w))).
  destruct (decodes_or_not rt request) as [[d Hd] | Hno].
  - rewrite (fetch_decoded rt o request w d Hd).
    destruct (cache_match_fault o); [events; reflexivity|].
    destruct (cache_find (url request) (cache w));
      destruct (stats_of o (kv w)) as [s|e]; cbn zeta;
      try destruct (kv_put_fault o);
      try destruct (puppeteer o d (theme_of (new_URL rt (url request)))) as [svg|err];
      try destruct (malformed svg); events; reflexivity.
  - revert Hno. clear. intros Hno. unfold fetch.
    destruct (String.eqb_spec (pathname (new_URL rt (url request))) "/cache-stats") as [E1|E1].
    { unfold mbind, M_bind. rewrite getCacheStats_run.
      destruct (stats_of o (kv w)); cbn; events; reflexivity. }
    destruct (String.eqb_spec (pathname (new_URL rt (url request))) "/cache-stats/reset") as [E2|E2].
    { exec. destruct (kv_put_fault o); cbn; events; reflexivity. }
    destruct (String.eqb_spec (pathname (new_URL rt (url request))) "/cache-entries") as [E3|E3].
    { exec. destruct (cache_keys_fault o); cbn; events; reflexivity. }
    assert (Hsame : trace w = trace w ++ new_events w w).
    { unfold new_events. now rewrite drop_all, app_nil_r. }
    destruct (String.eqb_spec (pathname (new_URL rt (url request))) "/svg") as [E4|E4];
      cbn [negb]; [|exact Hsame].
    destruct (searchParams_get (searchParams (new_URL rt (url request))) "mermaid")
      as [c|] eqn:Hget; cbn [falsy]; [|exact Hsame].
    destruct (String.eqb_spec c "") as [Ec|Ec]; [exact Hsame|].
    cbn [default from_option id].
    unfold call, mbind, M_bind.
    destruct (decompressFromEncodedURIComponent rt c) as [[d|]|e] eqn:Hdec;
      cbn [falsy]; [|exact Hsame|exact Hsame].
    destruct (String.eqb_spec d "") as [Ed|Ed]; [exact Hsame|].
    destruct (Hno d). split; [assumption|]. exists c. auto.
Qed.

Lemma serve_extends (o : Oracle) (request : Request) (w : World) :
  new_events w (snd (serve rt o request w))
    = new_events w (snd (fetch rt o request w))
      ++ new_events (snd (fetch rt o request w)) (snd (serve rt o request w)) /\
  lookups (new_events (snd (fetch rt o request w)) (snd (serve rt o request w))) = 0 /\
  kv (snd (serve rt o request w)) = kv (snd (fetch rt o request w)) /\
  exists evs, trace (snd (serve rt o request w)) = trace w ++ evs.
Proof.
  pose proof (fetch_extends o request w) as Hf. unfold serve.
  destruct (fetch rt o request w) as [r w']. cbn [snd] in *.
  destruct (settle_stats o w') as (Hkv & evs & Htr & Hl).
  destruct (new_events_trans w w' (settle o w') Hf (ex_intro _ evs Htr)) as [Hsplit Hext].
  rewrite (new_events_app _ _ _ Htr) in *. auto.
Qed.

(** One request of a sequential execution whose stores answer: a lookup
    adds one to exactly one counter, anything else but a reset leaves the
    record alone. *)
Lemma serve_step (o : Oracle) (request : Request) (w : World) (s : CacheStats) :
  stores_answer o -> ~ is_reset rt request ->
  kv w !! "stats" = Some (Stringified s) ->
  let w' := snd (serve rt o request w) in
  (lookups (new_events w w') = 0 /\ kv w' = kv w) \/
  (lookups (new_events w w') = 1 /\
   exists s', kv w' !! "stats" = Some (Stringified s') /\
     lastReset s' = lastReset s /\
     ((hits s' = hits s + 1 /\ misses s' = misses s) \/
      (hits s' = hits s /\ misses s' = misses s + 1))%N).
Proof.
  intros (Hget & Hput & Hmatch) Hreset Hkv w'. subst w'.
  destruct (serve_extends o request w) as (-> & Hl & -> & _).
  rewrite lookups_app, Hl, Nat.add_0_r. clear Hl.
  destruct (decodes_or_not rt request) as [[d Hd] | Hno].
  - right. rewrite (fetch_decoded rt o request w d Hd).
    rewrite Hmatch, (stats_of_stringified o _ s Hget Hkv), Hput. cbn zeta.
    destruct (cache_find (url request) (cache w));
      try destruct (puppeteer o d (theme_of (new_URL rt (url request)))) as [svg|err];
      try destruct (malformed svg); events; cbn [snd kv];
      (split; [reflexivity|]); eexists; (split; [apply lookup_insert_eq|]);
      cbn; auto.
  - left. destruct (fetch_undecoded rt o request w Hno) as (_ & _ & Hev & Hsame).
    split; [|auto].
    destruct Hev as [-> | [-> | [[v ->] | ->]]]; reflexivity.
Qed.

Lemma run_counts (steps : list (Oracle * Request)) :
  forall (w : World) (s : CacheStats),
    Forall (fun step => stores_answer (fst step) /\ ~ is_reset rt (snd step)) steps ->
    kv w !! "stats" = Some (Stringified s) ->
    (exists evs, trace (run rt steps w) = trace w ++ evs) /\
    exists s', kv (run rt steps w) !! "stats" = Some (Stringified s') /\
      lastReset s' = lastReset s /\
      (hits s' + misses s' =
         hits s + misses s + N.of_nat (lookups (new_events w (run rt steps w))))%N.
Proof.
  induction steps as [|[o request] steps IH]; intros w s Hall Hkv; cbn [run].
  - split; [exists []; now rewrite app_nil_r|].
    exists s. rewrite (new_events_same w w eq_refl). cbn. repeat split; auto; lia.
  - inversion Hall as [|? ? [Hans Hreset] Hrest]; subst. cbn [fst snd] in *.
    destruct (serve_extends o request w) as (_ & _ & _ & Hext1).
    assert (Hstep : exists s1, kv (snd (serve rt o request w)) !! "stats"
                                 = Some (Stringified s1) /\
              lastReset s1 = lastReset s /\
              (hits s1 + misses s1 = hits s + misses s +
                 N.of_nat (lookups (new_events w (snd (serve rt o request w)))))%N).
    { destruct (serve_step o request w s Hans Hreset Hkv) as [[Hl Hsame] | [Hl Hs1]].
      - exists s. rewrite Hsame, Hl. repeat split; auto; lia.
      - destruct Hs1 as (s1 & Hkv1 & Hlast & Hcount). exists s1. rewrite Hl.
        repeat split; auto; lia. }
    destruct Hstep as (s1 & Hkv1 & Hlast1 & Hcount1).
    destruct (IH _ s1 Hrest Hkv1) as (Hext2 & s2 & Hkv2 & Hlast2 & Hcount2).
    destruct (new_events_trans w _ _ Hext1 Hext2) as [Hsplit Hext].
    split; [exact Hext|]. exists s2. rewrite Hsplit, lookups_app.
    repeat split; [exact Hkv2 | congruence | lia].
Qed.

(** C7, amended.  In a sequential execution that starts with a reset and
    goes on with requests that are not resets, the stats store and the
    lookup answering at each of them: at the end
    [hits + misses] of the stats record is the number of cache lookups
    made since the reset, and the record still carries the time of that
    reset.  Step by step: a request that makes a lookup adds one to
    exactly one of the two counters and leaves the other, a request that
    makes none leaves the KV namespace as it was. *)
Theorem hits_plus_misses_count_lookups (o0 : Oracle) (reset : Request)
    (steps : list (Oracle * Request)) (w : World) :
  is_reset rt reset ->
  kv_put_fault o0 = false ->
  Forall (fun step => stores_answer (fst step) /\ ~ is_reset rt (snd step)) steps ->
  let w1 := snd (serve rt o0 reset w) in
  let w2 := run rt steps w1 in
  (exists s, kv w2 !! "stats" = Some (Stringified s) /\
     lastReset s = now o0 /\
     (hits s + misses s)%N = N.of_nat (lookups (new_events w1 w2))) /\
  (forall o request w' s,
     In (o, request) steps -> kv w' !! "stats" = Some (Stringified s) ->
     let w'' := snd (serve rt o request w') in
     (lookups (new_events w' w'') = 0 /\ kv w'' = kv w') \/
     (lookups (new_events w' w'') = 1 /\
      exists s', kv w'' !! "stats" = Some (Stringified s') /\
        lastReset s' = lastReset s /\
        ((hits s' = hits s + 1 /\ misses s' = misses s) \/
         (hits s' = hits s /\ misses s' = misses s + 1))%N)).
Proof.
  intros Hreset Hput Hall w1 w2. split.
  - assert (Hkv1 : kv w1 !! "stats" = Some (Stringified (mkStats 0 0 (now o0)))).
    { subst w1. destruct (serve_extends o0 reset w) as (_ & _ & -> & _).
      unfold fetch. unfold is_reset in Hreset. rewrite Hreset. exec. cbn.
      rewrite Hput. cbn. apply lookup_insert_eq. }
    destruct (run_counts steps w1 _ Hall Hkv1) as (_ & s & Hkv & Hlast & Hcount).
    exists s. subst w2. cbn [hits misses lastReset] in *.
    split; [exact Hkv | split; [exact Hlast | lia]].
  - intros o request w' s Hin Hkv.
    rewrite List.Forall_forall in Hall. destruct (Hall _ Hin) as [Hans Hnr].
    now apply serve_step.
Qed.
End Counting.

(** ** The worker on the sample data *)

(** A first request renders and leaves the world [Sample.warm] behind (its
    trace put aside); a second one for the same URL is a hit. *)
Example first_request_warms_the_cache :
  let w := snd (serve Sample.rt Sample.calm (Sample.GET Sample.svg_href) Sample.fresh) in
  kv w = kv Sample.warm /\ cache w = cache Sample.warm /\ pending w = [] /\
  fst (fetch Sample.rt Sample.browser_down (Sample.GET Sample.svg_href) w)
    = Returns Sample.svg_response.
Proof. vm_compute. repeat split. Qed.

(** The same diagram under another URL is another entry: a miss. *)
Example other_url_is_a_miss :
  cache_find Sample.dark_href (cache Sample.warm) = None /\
  fst (fetch Sample.rt Sample.browser_down (Sample.GET Sample.dark_href) Sample.warm)
    = Returns (mkResponse 500 (Text "Internal error") []).
Proof. vm_compute. repeat split. Qed.

(** Markup that is not an image is refused and not stored. *)
Example html_is_refused :
  let r := serve Sample.rt Sample.browser_html (Sample.GET Sample.svg_href) Sample.fresh in
  fst r = Returns (mkResponse 500 (Text "Failed to render SVG") []) /\
  cache (snd r) = [] /\
  kv (snd r) !! "stats" = Some (Stringified (mkStats 0 1 Sample.clock)).
Proof. vm_compute. repeat split. Qed.

(** A store that fails, and a request that is not a GET: the image is
    served all the same and the cache stays empty. *)
Example failed_store_is_silent :
  let r := serve Sample.rt Sample.store_down (Sample.GET Sample.svg_href) Sample.fresh in
  let r' := serve Sample.rt Sample.calm (mkRequest Sample.svg_href "POST") Sample.fresh in
  fst r = Returns Sample.svg_response /\ cache (snd r) = [] /\
  fst r' = Returns Sample.svg_response /\ cache (snd r') = [].
Proof. vm_compute. repeat split. Qed.

(** Hit rates as the stats view prints them; 1/800 is 0.125 percent, a tie
    between two hundredths, and goes up. *)
Example hit_rates :
  hitRate_of Sample.rt (mkStats 45 12 Sample.clock) 57 = "78.95" /\
  hitRate_of Sample.rt (mkStats 0 0 Sample.clock) 0 = "0.00" /\
  hitRate_of Sample.rt (mkStats 0 7 Sample.clock) 7 = "0.00" /\
  hitRate_of Sample.rt (mkStats 7 0 Sample.clock) 7 = "100.00" /\
  hitRate_of Sample.rt (mkStats 1 2 Sample.clock) 3 = "33.33" /\
  hitRate_of Sample.rt (mkStats 2 1 Sample.clock) 3 = "66.67" /\
  hitRate_of Sample.rt (mkStats 1 799 Sample.clock) 800 = "0.13".
Proof. vm_compute. repeat split. Qed.

(** ** Instances on the sample data *)

Lemma lookup_failure_reaches_the_caller_witness :
  let request := Sample.GET Sample.svg_href in
  let r := fetch Sample.rt Sample.lookup_down request Sample.warm in
  In (EvCacheMatch Sample.svg_href) (new_events Sample.warm (snd r)) /\
  cache_match_fault Sample.lookup_down = true /\
  fst r = Throws "cache.match failed" /\
  new_events Sample.warm (snd r) = [EvCacheMatch Sample.svg_href].
Proof.
  cbv zeta.
  assert (Hin : In (EvCacheMatch Sample.svg_href)
            (new_events Sample.warm
               (snd (fetch Sample.rt Sample.lookup_down
                       (Sample.GET Sample.svg_href) Sample.warm))))
    by (vm_compute; auto 10).
  split; [exact Hin|]. split; [reflexivity|].
  exact (proj1 (lookup_failure_reaches_the_caller Sample.rt Sample.lookup_down
                  (Sample.GET Sample.svg_href) Sample.warm)
           Sample.svg_href Hin eq_refl).
Defined.

Lemma failed_render_is_500_witness :
  let request := Sample.GET Sample.svg_href in
  let r := fetch Sample.rt Sample.browser_down request Sample.fresh in
  In (EvRender "graph TD; A-->B" "default") (new_events Sample.fresh (snd r)) /\
  render_fails (puppeteer Sample.browser_down "graph TD; A-->B" "default") = true /\
  fst r = Returns (mkResponse 500 (Text "Internal error") []) /\
  pending (snd r) = [] /\ cache (snd r) = [].
Proof.
  cbv zeta.
  assert (Hin : In (EvRender "graph TD; A-->B" "default")
            (new_events Sample.fresh
               (snd (fetch Sample.rt Sample.browser_down
                       (Sample.GET Sample.svg_href) Sample.fresh))))
    by (vm_compute; auto 10).
  assert (Hfail : render_fails (puppeteer Sample.browser_down "graph TD; A-->B" "default") = true)
    by reflexivity.
  destruct (failed_render_is_500 Sample.rt Sample.browser_down
              (Sample.GET Sample.svg_href) Sample.fresh _ _ Hin Hfail)
    as (Hr & Hp & Hc & _ & _).
  exact (conj Hin (conj Hfail (conj Hr (conj Hp Hc)))).
Defined.

Lemma undecodable_request_is_400_witness :
  pathname (new_URL Sample.rt Sample.bare_href) = "/svg" /\
  searchParams_get (searchParams (new_URL Sample.rt Sample.bare_href)) "mermaid" = None /\
  exists msg,
    fetch Sample.rt Sample.calm (Sample.GET Sample.bare_href) Sample.warm
      = (Returns (mkResponse 400 (Text msg) []), Sample.warm) /\
    (msg = "Missing mermaid parameter" \/
     msg = "Failed to decompress mermaid parameter").
Proof.
  split; [reflexivity|]. split; [reflexivity|].
  apply (undecodable_request_is_400 Sample.rt Sample.calm
           (Sample.GET Sample.bare_href) Sample.warm); [reflexivity | left; reflexivity].
Defined.

Lemma throwing_payload_rejects_witness :
  let request := Sample.GET Sample.broken_href in
  pathname (new_URL Sample.rt (url request)) = "/svg" /\
  searchParams_get (searchParams (new_URL Sample.rt (url request))) "mermaid"
    = Some "zzzz" /\
  "zzzz" <> "" /\
  decompressFromEncodedURIComponent Sample.rt "zzzz" = Throws "TypeError" /\
  fetch Sample.rt Sample.calm request Sample.warm = (Throws "TypeError", Sample.warm).
Proof.
  cbv zeta.
  split; [reflexivity|]. split; [reflexivity|]. split; [discriminate|].
  split; [reflexivity|].
  apply (throwing_payload_rejects Sample.rt Sample.calm
           (Sample.GET Sample.broken_href) Sample.warm "zzzz" "TypeError"
           eq_refl eq_refl ltac:(discriminate) eq_refl).
Defined.

Lemma empty_diagram_is_400_witness :
  pathname (new_URL Sample.rt Sample.empty_href) = "/svg" /\
  searchParams_get (searchParams (new_URL Sample.rt Sample.empty_href)) "mermaid"
    = Some "Q" /\
  "Q" <> "" /\
  decompressFromEncodedURIComponent Sample.rt "Q" = Returns (Some "") /\
  fetch Sample.rt Sample.calm (Sample.GET Sample.empty_href) Sample.warm =
    (Returns (mkResponse 400 (Text "Failed to decompress mermaid parameter") []),
     Sample.warm).
Proof.
  split; [reflexivity|]. split; [reflexivity|]. split; [discriminate|].
  split; [reflexivity|].
  apply (proj1 (empty_diagram_is_400 Sample.rt Sample.calm
                  (Sample.GET Sample.empty_href) Sample.warm "Q"
                  eq_refl eq_refl ltac:(discriminate) eq_refl)).
Defined.

Lemma cache_hit_is_served_witness :
  let request := Sample.GET Sample.svg_href in
  let r := fetch Sample.rt Sample.calm request Sample.warm in
  In (EvCacheMatch (url request)) (new_events Sample.warm (snd r)) /\
  cache_match_fault Sample.calm = false /\
  cache_find (url request) (cache Sample.warm) = Some Sample.svg_response /\
  stats_of Sample.calm (kv Sample.warm) = Returns (mkStats 0 1 Sample.clock) /\
  kv_put_fault Sample.calm = false /\
  fst r = Returns Sample.svg_response /\
  kv (snd r) !! "stats" = Some (Stringified (mkStats 1 1 Sample.clock)) /\
  pending (snd r) = [] /\ cache (snd r) = cache Sample.warm.
Proof.
  cbv zeta.
  assert (Hin : In (EvCacheMatch (url (Sample.GET Sample.svg_href)))
            (new_events Sample.warm
               (snd (fetch Sample.rt Sample.calm (Sample.GET Sample.svg_href) Sample.warm))))
    by (vm_compute; auto 10).
  assert (Hfind : cache_find (url (Sample.GET Sample.svg_href)) (cache Sample.warm)
                  = Some Sample.svg_response) by reflexivity.
  assert (Hstats : stats_of Sample.calm (kv Sample.warm)
                   = Returns (mkStats 0 1 Sample.clock)) by reflexivity.
  destruct (cache_hit_is_served Sample.rt Sample.calm (Sample.GET Sample.svg_href)
              Sample.warm Sample.svg_response Hin eq_refl Hfind)
    as (_ & _ & Hp & Hc & _ & Hserved).
  destruct (Hserved _ Hstats eq_refl) as (Hr & Hkv & _).
  exact (conj Hin (conj eq_refl (conj Hfind (conj Hstats (conj eq_refl
          (conj Hr (conj Hkv (conj Hp Hc)))))))).
Defined.

Lemma cache_hit_is_lost_with_the_recording_witness :
  let request := Sample.GET Sample.svg_href in
  let r := fetch Sample.rt Sample.kv_put_down request Sample.warm in
  In (EvCacheMatch (url request)) (new_events Sample.warm (snd r)) /\
  cache_match_fault Sample.kv_put_down = false /\
  cache_find (url request) (cache Sample.warm) = Some Sample.svg_response /\
  kv_put_fault Sample.kv_put_down = true /\
  fst (fetch Sample.rt Sample.calm request Sample.warm) = Returns Sample.svg_response /\
  exists e, fst r = Throws e /\ e = "KV PUT failed".
Proof.
  cbv zeta.
  assert (Hin : In (EvCacheMatch (url (Sample.GET Sample.svg_href)))
            (new_events Sample.warm
               (snd (fetch Sample.rt Sample.kv_put_down
                       (Sample.GET Sample.svg_href) Sample.warm))))
    by (vm_compute; auto 10).
  assert (Hfind : cache_find (url (Sample.GET Sample.svg_href)) (cache Sample.warm)
                  = Some Sample.svg_response) by reflexivity.
  destruct (cache_hit_is_lost_with_the_recording Sample.rt Sample.kv_put_down
              (Sample.GET Sample.svg_href) Sample.warm Sample.svg_response
              Hin eq_refl Hfind (or_intror eq_refl)) as [[e He] _].
  split; [exact Hin|]. split; [reflexivity|]. split; [exact Hfind|].
  split; [reflexivity|]. split; [reflexivity|].
  exists e. split; [exact He|]. vm_compute in He. congruence.
Defined.

Lemma rendered_svg_is_served_witness :
  let request := Sample.GET Sample.svg_href in
  let r := fetch Sample.rt Sample.calm request Sample.fresh in
  In (EvRender "graph TD; A-->B" "default") (new_events Sample.fresh (snd r)) /\
  puppeteer Sample.calm "graph TD; A-->B" "default" = Rendered (Some Sample.svg) /\
  malformed (Some Sample.svg) = false /\
  fst r = Returns Sample.svg_response /\
  pending (snd r) = [CachePut request Sample.svg_response] /\
  cache (snd r) = [] /\
  cache_find (url request) (cache (snd (serve Sample.rt Sample.calm request Sample.fresh)))
    = Some Sample.svg_response.
Proof.
  cbv zeta.
  assert (Hin : In (EvRender "graph TD; A-->B" "default")
            (new_events Sample.fresh
               (snd (fetch Sample.rt Sample.calm (Sample.GET Sample.svg_href) Sample.fresh))))
    by (vm_compute; auto 10).
  assert (Hsvg : puppeteer Sample.calm "graph TD; A-->B" "default"
                 = Rendered (Some Sample.svg)) by reflexivity.
  assert (Hok : malformed (Some Sample.svg) = false) by reflexivity.
  destruct (rendered_svg_is_served Sample.rt Sample.calm (Sample.GET Sample.svg_href)
              Sample.fresh _ _ _ Hin Hsvg Hok)
    as (Hr & _ & Hp & Hc & Hstore).
  exact (conj Hin (conj Hsvg (conj Hok (conj Hr (conj Hp (conj Hc
          (Hstore eq_refl eq_refl eq_refl))))))).
Defined.

Lemma reset_then_count_witness :
  kv_put_fault Sample.calm = false /\ kv_get_fault Sample.calm = false /\
  let w1 := snd (resetCacheStats Sample.calm (Sample.with_stats 45 12)) in
  fst (getCacheStats Sample.calm w1) = Returns (mkStats 0 0 Sample.clock) /\
  fst (getCacheStats Sample.calm (snd (incrementCacheHit Sample.calm w1)))
    = Returns (mkStats 1 0 Sample.clock) /\
  fst (getCacheStats Sample.calm (snd (incrementCacheMiss Sample.calm w1)))
    = Returns (mkStats 0 1 Sample.clock).
Proof.
  split; [reflexivity|]. split; [reflexivity|].
  exact (reset_then_count Sample.calm Sample.calm Sample.calm (Sample.with_stats 45 12)
           eq_refl eq_refl eq_refl eq_refl).
Defined.

Lemma cache_stats_view_witness :
  let request := Sample.GET Sample.stats_href in
  let w := Sample.with_stats 45 12 in
  pathname (new_URL Sample.rt (url request)) = "/cache-stats" /\
  getCacheStats Sample.calm w
    = (Returns (mkStats 45 12 Sample.clock), logged w [EvKvGet "stats"]) /\
  exists eff,
    fst (fetch Sample.rt Sample.calm request w) =
      Returns (mkResponse 200
        (Json 2 (JObj [("hits", JNum 45); ("misses", JNum 12);
                       ("lastReset", JStr Sample.clock);
                       ("total", JNum 57);
                       ("hitRate", JStr "78.95%");
                       ("efficiency", JStr eff)]))
        [("Content-Type", "application/json")]).
Proof.
  cbv zeta.
  assert (Hget : getCacheStats Sample.calm (Sample.with_stats 45 12)
                 = (Returns (mkStats 45 12 Sample.clock),
                    logged (Sample.with_stats 45 12) [EvKvGet "stats"]))
    by reflexivity.
  split; [reflexivity|]. split; [exact Hget|].
  destruct (cache_stats_view Sample.rt Sample.calm (Sample.GET Sample.stats_href)
              _ _ _ eq_refl Hget) as (rate & eff & Hr & _ & _ & _ & Hex).
  destruct (Hex eq_refl eq_refl) as [_ ->]. exists eff. now rewrite Hr.
Defined.

Lemma cache_entries_listing_witness :
  let request := Sample.GET Sample.entries_href in
  let w := Sample.with_cache 73 in
  pathname (new_URL Sample.rt (url request)) = "/cache-entries" /\
  List.length (cache w) = 73 /\
  exists listed,
    fst (fetch Sample.rt Sample.enumerable request w) =
      Returns (mkResponse 200
        (Json 2 (JObj [("count", JNum 73); ("entries", JArr listed)]))
        [("Content-Type", "application/json")]) /\
    List.length listed = 50 /\
    listed = List.firstn 50 (List.map entry_of (List.map fst (cache w))).
Proof.
  cbv zeta. split; [reflexivity|]. split; [reflexivity|].
  destruct (cache_entries_listing Sample.rt Sample.enumerable
              (Sample.GET Sample.entries_href)
              (Sample.with_cache 73) eq_refl eq_refl) as (Hr & _ & _ & H73 & _).
  eexists. split; [exact Hr|]. split; [|reflexivity].
  apply H73. reflexivity.
Defined.

Lemma cache_entries_needs_keys_witness :
  let request := Sample.GET Sample.entries_href in
  pathname (new_URL Sample.rt (url request)) = "/cache-entries" /\
  cache_keys_fault Sample.calm = true /\
  List.length (cache (Sample.with_cache 73)) = 73 /\
  fst (fetch Sample.rt Sample.calm request (Sample.with_cache 73))
    = Throws "cache.keys failed" /\
  fst (fetch Sample.rt Sample.calm request Sample.fresh)
    = Throws "cache.keys failed".
Proof.
  cbv zeta. split; [reflexivity|]. split; [reflexivity|]. split; [reflexivity|].
  rewrite (cache_entries_needs_keys Sample.rt Sample.calm
             (Sample.GET Sample.entries_href) (Sample.with_cache 73) eq_refl eq_refl).
  split; reflexivity.
Defined.

(** C7, as the specification has it, fails: after a reset, one request
    whose recording the stats store rejects has made a lookup, and the
    record still counts none. *)
Lemma rejected_recording_is_not_counted : ~ counts_every_lookup Sample.rt.
Proof.
  intros H.
  destruct (H Sample.calm (Sample.GET Sample.reset_href)
              [(Sample.kv_put_down, Sample.GET Sample.svg_href)] Sample.fresh)
    as (s & Hs & Hsum).
  - reflexivity.
  - reflexivity.
  - repeat constructor. discriminate.
  - vm_compute in Hs. injection Hs as <-. vm_compute in Hsum. discriminate Hsum.
Qed.

Lemma hits_plus_misses_count_lookups_witness :
  let reset := Sample.GET Sample.reset_href in
  let steps := [(Sample.calm, Sample.GET Sample.svg_href);
                (Sample.calm, Sample.GET Sample.stats_href);
                (Sample.browser_down, Sample.GET Sample.dark_href);
                (Sample.calm, Sample.GET Sample.svg_href);
                (Sample.calm, Sample.GET Sample.empty_href)] in
  let w1 := snd (serve Sample.rt Sample.calm reset (Sample.with_stats 45 12)) in
  let w2 := run Sample.rt steps w1 in
  is_reset Sample.rt reset /\
  kv_put_fault Sample.calm = false /\
  Forall (fun step => stores_answer (fst step) /\ ~ is_reset Sample.rt (snd step)) steps /\
  lookups (new_events w1 w2) = 3 /\
  exists s, kv w2 !! "stats" = Some (Stringified s) /\
            lastReset s = Sample.clock /\ (hits s + misses s)%N = 3%N.
Proof.
  cbv zeta.
  assert (Hall : Forall (fun step => stores_answer (fst step) /\ ~ is_reset Sample.rt (snd step))
            [(Sample.calm, Sample.GET Sample.svg_href);
             (Sample.calm, Sample.GET Sample.stats_href);
             (Sample.browser_down, Sample.GET Sample.dark_href);
             (Sample.calm, Sample.GET Sample.svg_href);
             (Sample.calm, Sample.GET Sample.empty_href)]).
  { repeat constructor; discriminate. }
  assert (Hl : lookups (new_events
                 (snd (serve Sample.rt Sample.calm (Sample.GET Sample.reset_href)
                         (Sample.with_stats 45 12)))
                 (run Sample.rt
                    [(Sample.calm, Sample.GET Sample.svg_href);
                     (Sample.calm, Sample.GET Sample.stats_href);
                     (Sample.browser_down, Sample.GET Sample.dark_href);
                     (Sample.calm, Sample.GET Sample.svg_href);
                     (Sample.calm, Sample.GET Sample.empty_href)]
                    (snd (serve Sample.rt Sample.calm (Sample.GET Sample.reset_href)
                            (Sample.with_stats 45 12))))) = 3)
    by (vm_compute; reflexivity).
  split; [reflexivity|]. split; [reflexivity|]. split; [exact Hall|]. split; [exact Hl|].
  destruct (hits_plus_misses_count_lookups Sample.rt Sample.calm
              (Sample.GET Sample.reset_href) _ (Sample.with_stats 45 12)
              eq_refl eq_refl Hall) as ((s & Hkv & Hlast & Hcount) & _).
  exists s. rewrite Hl in Hcount. auto.
Defined.

(** * More of the worker *)

(** ** What a served request does to the cache *)

Section Served.
Variable rt : Runtime.
Variable o : Oracle.

(** The handler hands over nothing, or, after a lookup that found nothing,
    the store of the image it answers with. *)
Lemma fetch_pending (request : Request) (w : World) :
  pending (snd (fetch rt o request w)) = pending w \/
  exists svg : string,
    malformed (Some svg) = false /\
    cache_find (url request) (cache w) = None /\
    fst (fetch rt o request w) = Returns (mkResponse 200 (Text svg) svg_headers) /\
    pending (snd (fetch rt o request w))
      = pending w ++ [CachePut request (mkResponse 200 (Text svg) svg_headers)].
Proof.
  destruct (decodes_or_not rt request) as [[d Hd] | Hno].
  - rewrite (fetch_decoded rt o request w d Hd).
    destruct (cache_match_fault o); [now left|].
    destruct (cache_find (url request) (cache w)) eqn:Hfind;
      destruct (stats_of o (kv w)) as [s|e]; cbn zeta;
      try destruct (kv_put_fault o); try (now left).
    destruct (puppeteer o d (theme_of (new_URL rt (url request)))) as [[svg|]|err];
      try (now left).
    destruct (malformed (Some svg)) eqn:E; [now left|].
    right. exists svg. cbn. auto.
  - left. now destruct (fetch_undecoded rt o request w Hno) as (_ & ? & _).
Qed.

Lemma settle_tasks_pending (ts : list Task) :
  forall w0 : World,
    pending w0 = [] -> pending (fold_left (settle_task o) ts w0) = [].
Proof.
  induction ts as [|t ts IH]; intros w0 E; cbn; [exact E|].
  apply IH. destruct t. cbn. now destruct (_ || _).
Qed.

(** Once a request is served nothing is left pending. *)
Lemma serve_pending (request : Request) (w : World) :
  pending (snd (serve rt o request w)) = [].
Proof.
  unfold serve. destruct (fetch rt o request w) as [r w']. cbn [snd]. unfold settle.
  now apply settle_tasks_pending.
Qed.

(** A served request leaves the cache as it was, or, its URL having no
    entry, has put the image it answered with under that URL. *)
Lemma serve_cache (request : Request) (w : World) :
  pending w = [] ->
  cache (snd (serve rt o request w)) = cache w \/
  exists svg : string,
    malformed (Some svg) = false /\ method request = "GET" /\
    cache_put_fault o = false /\
    cache_find (url request) (cache w) = None /\
    fst (serve rt o request w) = Returns (mkResponse 200 (Text svg) svg_headers) /\
    cache (snd (serve rt o request w))
      = cache_store request (mkResponse 200 (Text svg) svg_headers) (cache w).
Proof.
  intros Hp. pose proof (fetch_cache rt o request w) as Hc.
  pose proof (fetch_pending request w) as Hpend. unfold serve.
  destruct (fetch rt o request w) as [r w']. cbn [fst snd] in *.
  destruct Hpend as [E | (svg & Hok & Hnone & -> & E)].
  - left. rewrite settle_nothing; [exact Hc | congruence].
  - unfold settle. rewrite E, Hp. cbn [app fold_left settle_task].
    destruct (cache_put_fault o); cbn [orb cache]; [now left|].
    destruct (String.eqb_spec (method request) "GET") as [Hm|Hm]; cbn [negb cache];
      [|now left].
    right. exists svg. rewrite Hc. auto 10.
Qed.

Lemma find_filter_other (key key' : string) (c : list (Request * Response)) :
  key <> key' ->
  List.find (same_key key) (List.filter (fun e => negb (same_key key' e)) c)
    = List.find (same_key key) c.
Proof.
  intros Hne. induction c as [|e c IH]; cbn; [reflexivity|].
  destruct (same_key key' e) eqn:E'; cbn.
  - destruct (same_key key e) eqn:E; [|exact IH].
    unfold same_key in *. apply String.eqb_eq in E, E'. congruence.
  - now rewrite IH.
Qed.

(** A store under one URL leaves the entry of any other URL as it was. *)
Lemma cache_find_store_other (request : Request) (response : Response)
    (c : list (Request * Response)) (key : string) :
  key <> url request ->
  cache_find key (cache_store request response c) = cache_find key c.
Proof.
  intros Hne. unfold cache_find, cache_store.
  assert (Hfind : forall l l' : list (Request * Response),
            List.find (same_key key) (l ++ l') =
            match List.find (same_key key) l with
            | Some e => Some e
            | None => List.find (same_key key) l'
            end).
  { induction l as [|e l IH]; intros l'; cbn; [reflexivity|].
    destruct (same_key key e); [reflexivity | apply IH]. }
  rewrite Hfind, (find_filter_other key (url request) c Hne). cbn.
  unfold same_key at 2. cbn.
  destruct (String.eqb_spec (url request) key) as [E|E]; [congruence|].
  now destruct (List.find (same_key key) c).
Qed.

(** No entry of the cache is in the way of a store that follows a lookup
    which found nothing. *)
Lemma filter_absent (key : string) (c : list (Request * Response)) :
  cache_find key c = None ->
  List.filter (fun e => negb (same_key key e)) c = c.
Proof.
  unfold cache_find. induction c as [|e c IH]; cbn; [reflexivity|].
  destruct (same_key key e) eqn:E; cbn; [discriminate|].
  intros H. now rewrite IH.
Qed.

Lemma cache_find_none (key : string) (c : list (Request * Response)) :
  cache_find key c = None <-> ~ In key (List.map (fun e => url (fst e)) c).
Proof.
  unfold cache_find. induction c as [|e c IH]; cbn; [tauto|].
  unfold same_key at 1. destruct (String.eqb_spec (url (fst e)) key) as [E|E].
  - split; [discriminate | intros H; destruct H; now left].
  - rewrite IH. tauto.
Qed.

(** A request that does not pass the decoding step is not answered with
    an image. *)
Lemma fetch_undecoded_response (request : Request) (w : World) (response : Response) :
  (forall d, ~ decodes rt request d) ->
  fst (fetch rt o request w) = Returns response -> is_image response = false.
Proof.
  intros Hno. unfold fetch.
  destruct (String.eqb_spec (pathname (new_URL rt (url request))) "/cache-stats") as [E1|E1].
  { unfold mbind, M_bind. rewrite getCacheStats_run.
    destruct (stats_of o (kv w)); cbn; intros [= <-]; reflexivity. }
  destruct (String.eqb_spec (pathname (new_URL rt (url request))) "/cache-stats/reset") as [E2|E2].
  { exec. destruct (kv_put_fault o); cbn; intros [= <-]; reflexivity. }
  destruct (String.eqb_spec (pathname (new_URL rt (url request))) "/cache-entries") as [E3|E3].
  { exec. destruct (cache_keys_fault o); cbn; intros [= <-]; reflexivity. }
  destruct (String.eqb_spec (pathname (new_URL rt (url request))) "/svg") as [E4|E4];
    cbn [negb]; [|cbn; intros [= <-]; reflexivity].
  destruct (searchParams_get (searchParams (new_URL rt (url request))) "mermaid")
    as [c|] eqn:Hget; cbn [falsy]; [|cbn; intros [= <-]; reflexivity].
  destruct (String.eqb_spec c "") as [Ec|Ec]; [cbn; intros [= <-]; reflexivity|].
  cbn [default from_option id].
  unfold call, mbind, M_bind.
  destruct (decompressFromEncodedURIComponent rt c) as [[d|]|e] eqn:Hdec;
    cbn [falsy]; [|cbn; intros [= <-]; reflexivity|cbn; intros [= <-]; reflexivity].
  destruct (String.eqb_spec d "") as [Ed|Ed]; [cbn; intros [= <-]; reflexivity|].
  destruct (Hno d). split; [assumption|]. exists c. auto.
Qed.

Lemma malformed_image (svg : string) :
  malformed (Some svg) = false ->
  is_image (mkResponse 200 (Text svg) svg_headers) = true.
Proof.
  cbn. intros H. apply orb_false_iff in H as [_ H]. apply negb_false_iff in H.
  rewrite H. cbn. now apply bool_decide_eq_true.
Qed.

(** An image comes out of the pipeline along one of two paths: the hit,
    which answers with the entry of the request URL, or the miss that
    rendered it and handed its store over; either way the stats store has
    taken the recording. *)
Lemma image_answer (request : Request) (w : World) (response : Response) :
  fst (fetch rt o request w) = Returns response ->
  is_image response = true ->
  (exists d, decodes rt request d) /\
  (exists s, kv (snd (fetch rt o request w)) !! "stats" = Some (Stringified s)) /\
  (cache_find (url request) (cache w) = Some response /\
   pending (snd (fetch rt o request w)) = pending w \/
   cache_find (url request) (cache w) = None /\
   pending (snd (fetch rt o request w)) = pending w ++ [CachePut request response]).
Proof.
  destruct (decodes_or_not rt request) as [[d Hd] | Hno].
  - intros Hr Himg. split; [eauto|]. revert Hr.
    rewrite (fetch_decoded rt o request w d Hd).
    destruct (cache_match_fault o); [discriminate|].
    destruct (cache_find (url request) (cache w)) eqn:Hfind;
      destruct (stats_of o (kv w)) as [s|e]; cbn zeta;
      try destruct (kv_put_fault o); try discriminate.
    + intros [= <-]. cbn. rewrite lookup_insert_eq. eauto.
    + destruct (puppeteer o d (theme_of (new_URL rt (url request)))) as [svg|err].
      * destruct (malformed svg); intros [= <-]; [discriminate Himg|].
        cbn. rewrite lookup_insert_eq. eauto 10.
      * intros [= <-]. discriminate Himg.
  - intros Hr Himg. rewrite (fetch_undecoded_response request w response Hno Hr) in Himg.
    discriminate.
Qed.

(** What serving a request that is answered with an image leaves behind:
    a stats record, an entry of the request URL that holds the image, and
    nothing pending. *)
Lemma served_image (request : Request) (w : World) (response : Response) :
  pending w = [] -> method request = "GET" -> cache_put_fault o = false ->
  fst (serve rt o request w) = Returns response ->
  is_image response = true ->
  let w1 := snd (serve rt o request w) in
  (exists d, decodes rt request d) /\
  (exists s, kv w1 !! "stats" = Some (Stringified s)) /\
  cache_find (url request) (cache w1) = Some response /\
  pending w1 = [].
Proof.
  intros Hp Hget Hstore Hr Himg w1.
  subst w1. pose proof (serve_pending request w) as Hp1.
  destruct (serve_extends rt o request w) as (_ & _ & Hkv & _).
  rewrite Hkv. clear Hkv. revert Hr Hp1. unfold serve.
  pose proof (fetch_cache rt o request w) as Hc.
  pose proof (image_answer request w response) as Hans.
  destruct (fetch rt o request w) as [r w']. cbn [fst snd] in *.
  intros -> Hp1. destruct (Hans eq_refl Himg) as (Hd & Hs & Hpath).
  split; [exact Hd|]. split; [exact Hs|]. split; [|exact Hp1].
  destruct Hpath as [[Hfind E] | [Hfind E]].
  - rewrite settle_nothing by congruence. now rewrite Hc.
  - unfold settle. rewrite E, Hp. cbn [app fold_left settle_task].
    rewrite Hstore, Hget. cbn. rewrite Hc. apply cache_find_store.
Qed.
End Served.

Section Kept.
Variable rt : Runtime.

Lemma run_pending (steps : list (Oracle * Request)) :
  forall w : World, pending w = [] -> pending (run rt steps w) = [].
Proof.
  induction steps as [|[o request] steps IH]; intros w Hp; cbn [run]; [exact Hp|].
  apply IH, serve_pending.
Qed.

Lemma cache_find_run (steps : list (Oracle * Request)) :
  forall (w : World) (key : string) (response : Response),
    pending w = [] ->
    cache_find key (cache w) = Some response ->
    cache_find key (cache (run rt steps w)) = Some response.
Proof.
  induction steps as [|[o request] steps IH]; intros w key response Hp Hfind;
    cbn [run]; [exact Hfind|].
  apply IH; [apply serve_pending|].
  destruct (serve_cache rt o request w Hp)
    as [-> | (svg & _ & _ & _ & Hnone & _ & ->)]; [exact Hfind|].
  rewrite cache_find_store_other; [exact Hfind|]. congruence.
Qed.

(** X2. The worker never replaces or removes an entry: a URL that has a
    response in the cache keeps that response through every sequential
    execution, whatever the requests and whatever the stores and the
    browser do.  (Expiry and eviction are the platform's and not modelled.) *)
Theorem entries_are_kept (steps : list (Oracle * Request)) :
  forall (w : World) (key : string) (response : Response),
    pending w = [] ->
    cache_find key (cache w) = Some response ->
    cache_find key (cache (run rt steps w)) = Some response.
Proof.
  induction steps as [|[o request] steps IH]; intros w key response Hp Hfind;
    cbn [run]; [exact Hfind|].
  apply IH; [apply serve_pending|].
  destruct (serve_cache rt o request w Hp)
    as [-> | (svg & _ & _ & _ & Hnone & _ & ->)]; [exact Hfind|].
  rewrite cache_find_store_other; [exact Hfind|]. congruence.
Qed.

(** X3. The cache is keyed by the literal URL: requests for other URLs, the
    same diagram under another query string included, leave the entry of a
    URL, or its absence, as it was. *)
Theorem other_urls_are_untouched (steps : list (Oracle * Request)) :
  forall (w : World) (key : string),
    pending w = [] ->
    Forall (fun step => url (snd step) <> key) steps ->
    cache_find key (cache (run rt steps w)) = cache_find key (cache w).
Proof.
  induction steps as [|[o request] steps IH]; intros w key Hp Hall;
    cbn [run]; [reflexivity|].
  inversion Hall as [|? ? Hne Hrest]; subst. cbn [snd] in Hne.
  rewrite IH; [|apply serve_pending | exact Hrest].
  destruct (serve_cache rt o request w Hp)
    as [-> | (svg & _ & _ & _ & _ & _ & ->)]; [reflexivity|].
  apply cache_find_store_other. congruence.
Qed.

Lemma images_stay (steps : list (Oracle * Request)) :
  forall w : World,
    pending w = [] ->
    Forall (fun entry => is_image (snd entry) = true) (cache w) ->
    Forall (fun entry => is_image (snd entry) = true) (cache (run rt steps w)).
Proof.
  induction steps as [|[o request] steps IH]; intros w Hp Himg; cbn [run]; [exact Himg|].
  apply IH; [apply serve_pending|].
  destruct (serve_cache rt o request w Hp)
    as [-> | (svg & Hok & _ & _ & Hnone & _ & ->)]; [exact Himg|].
  unfold cache_store. rewrite (filter_absent _ _ Hnone).
  apply Forall_app. split; [exact Himg|].
  constructor; [|constructor]. now apply malformed_image.
Qed.

Lemma cache_find_in (key : string) (c : list (Request * Response)) (response : Response) :
  cache_find key c = Some response -> exists request, In (request, response) c.
Proof.
  unfold cache_find. destruct (List.find (same_key key) c) as [[request r]|] eqn:E;
    [|discriminate].
  intros [= <-]. exists request. now apply List.find_some in E.
Qed.

(** X5. Starting from a cache that holds only images (an empty one, say),
    every answer the worker gives on [/svg], at any point of a sequential
    execution, is an image (status 200, the two headers, a body that starts
    with ["<svg"]) or a plain 400 or 500: never something in between. *)
Theorem svg_answers_are_images_or_errors (steps : list (Oracle * Request))
    (w : World) (o : Oracle) (request : Request) (response : Response) :
  pending w = [] ->
  Forall (fun entry => is_image (snd entry) = true) (cache w) ->
  pathname (new_URL rt (url request)) = "/svg" ->
  fst (fetch rt o request (run rt steps w)) = Returns response ->
  is_image response = true \/
  (exists msg, response = mkResponse 400 (Text msg) []) \/
  (exists msg, response = mkResponse 500 (Text msg) []).
Proof.
  intros Hp Himg Hpath. pose proof (images_stay steps w Hp Himg) as Hinv.
  generalize dependent (run rt steps w). intros w' Hinv.
  destruct (decodes_or_not rt request) as [[d Hd] | Hno].
  - rewrite (fetch_decoded rt o request w' d Hd).
    destruct (cache_match_fault o); [discriminate|].
    destruct (cache_find (url request) (cache w')) as [cached|] eqn:Hfind;
      destruct (stats_of o (kv w')) as [s|e]; cbn zeta;
      try destruct (kv_put_fault o); try discriminate.
    + intros [= <-]. left. destruct (cache_find_in _ _ _ Hfind) as [rq Hin].
      rewrite List.Forall_forall in Hinv. exact (Hinv _ Hin).
    + destruct (puppeteer o d (theme_of (new_URL rt (url request)))) as [svg|err].
      * destruct (malformed svg) eqn:Hm; intros [= <-]; [eauto|].
        left. destruct svg as [svg|]; [|discriminate]. now apply malformed_image.
      * intros [= <-]. eauto.
  - unfold fetch. rewrite Hpath. cbn [String.eqb Ascii.eqb Bool.eqb negb].
    destruct (searchParams_get (searchParams (new_URL rt (url request))) "mermaid")
      as [c|] eqn:Hget; cbn [falsy]; [|cbn; intros [= <-]; eauto].
    destruct (String.eqb_spec c "") as [Ec|Ec]; [cbn; intros [= <-]; eauto|].
    cbn [default from_option id].
    unfold call, mbind, M_bind.
    destruct (decompressFromEncodedURIComponent rt c) as [[d|]|e] eqn:Hdec;
      cbn [falsy]; [|cbn; intros [= <-]; eauto|cbn; intros [= <-]; eauto].
    destruct (String.eqb_spec d "") as [Ed|Ed]; [cbn; intros [= <-]; eauto|].
    destruct (Hno d). split; [assumption|]. exists c. auto.
Qed.
End Kept.

(** ** The stats store under concurrency and corruption *)

Section StatsRecord.
Variable rt : Runtime.

(** X6. The recording is a read followed by a write, with an [await] in
    between.  Two hits recorded one after the other add two; when the second
    reads before the first has written, one of them is lost, and a miss that
    overlaps a hit in that way wipes the hit out. *)
Theorem interleaved_recordings_lose_one (o1 o2 : Oracle) (w : World) (s : CacheStats) :
  kv w !! "stats" = Some (Stringified s) ->
  kv_get_fault o1 = false -> kv_put_fault o1 = false ->
  kv_get_fault o2 = false -> kv_put_fault o2 = false ->
  incrementCacheHit o1 = (getCacheStats o1 ≫= resume_hit o1) /\
  incrementCacheMiss o2 = (getCacheStats o2 ≫= resume_miss o2) /\
  kv (snd ((incrementCacheHit o1 ≫= fun _ => incrementCacheHit o2) w)) !! "stats"
    = Some (Stringified (mkStats (hits s + 2) (misses s) (lastReset s))) /\
  kv (snd (interleaved o1 o2 (resume_hit o1) (resume_hit o2) w)) !! "stats"
    = Some (Stringified (mkStats (hits s + 1) (misses s) (lastReset s))) /\
  kv (snd (interleaved o1 o2 (resume_hit o1) (resume_miss o2) w)) !! "stats"
    = Some (Stringified (mkStats (hits s) (misses s + 1) (lastReset s))).
Proof.
  intros Hkv Hg1 Hp1 Hg2 Hp2.
  split; [reflexivity|]. split; [reflexivity|].
  unfold interleaved, resume_hit, resume_miss. exec.
  rewrite Hg1, Hp1, Hg2, Hp2.
  repeat (progress (rewrite ?Hkv, ?lookup_insert_eq; cbn)).
  split; [|split; reflexivity].
  do 3 f_equal. lia.
Qed.

Lemma stats_of_absent (o : Oracle) (m : gmap string kv_text) :
  kv_get_fault o = false ->
  m !! "stats" = None \/ m !! "stats" = Some (Unparseable "") ->
  stats_of o m = Returns (mkStats 0 0 (now o)).
Proof.
  intros Hf Hm. unfold stats_of. exec. cbn. rewrite Hf.
  destruct Hm as [-> | ->]; reflexivity.
Qed.

Lemma stats_of_corrupt (o : Oracle) (m : gmap string kv_text) (raw : string) :
  kv_get_fault o = false -> m !! "stats" = Some (Unparseable raw) -> raw <> "" ->
  stats_of o m = Throws "SyntaxError".
Proof.
  intros Hf Hm Hraw. unfold stats_of. exec. cbn. rewrite Hf, Hm. cbn.
  apply String.eqb_neq in Hraw. now rewrite Hraw.
Qed.

(** X7. [/cache-stats] only reads: the KV namespace, the cache and the
    pending stores are as before, whatever the store answers.  With no record
    yet (or an empty text) it shows zeros, a rate of 0.00% and the time of
    this very request as [lastReset], and does not write that record. *)
Theorem stats_view_is_read_only (o : Oracle) (request : Request) (w : World) :
  pathname (new_URL rt (url request)) = "/cache-stats" ->
  let r := fetch rt o request w in
  kv (snd r) = kv w /\ cache (snd r) = cache w /\ pending (snd r) = pending w /\
  (kv_get_fault o = false ->
   kv w !! "stats" = None \/ kv w !! "stats" = Some (Unparseable "") ->
   fst r = Returns (mkResponse 200
     (Json 2 (JObj [("hits", JNum 0); ("misses", JNum 0);
                    ("lastReset", JStr (now o)); ("total", JNum 0);
                    ("hitRate", JStr "0.00%");
                    ("efficiency", JStr "No requests yet")]))
     [("Content-Type", "application/json")])).
Proof.
  intros Hpath r. subst r. unfold fetch. rewrite Hpath. cbn [String.eqb Ascii.eqb Bool.eqb].
  unfold mbind, M_bind. rewrite getCacheStats_run.
  split; [|split; [|split]]; try (destruct (stats_of o (kv w)); reflexivity).
  intros Hf Hm. now rewrite (stats_of_absent o _ Hf Hm).
Qed.

(** X8. A stats text that [JSON.parse] rejects stops the worker: the stats
    view rejects, and so does every decoded [/svg] request, right after its
    lookup, be its image in the cache or not; the renderer is not called and
    the text stays as it is. *)
Theorem corrupt_record_stops_the_pipeline (o : Oracle) (request : Request)
    (w : World) (raw : string) :
  kv w !! "stats" = Some (Unparseable raw) -> raw <> "" ->
  kv_get_fault o = false ->
  let r := fetch rt o request w in
  (pathname (new_URL rt (url request)) = "/cache-stats" ->
   fst r = Throws "SyntaxError") /\
  (forall d, decodes rt request d -> cache_match_fault o = false ->
     fst r = Throws "SyntaxError" /\
     new_events w (snd r) = [EvCacheMatch (url request); EvKvGet "stats"] /\
     kv (snd r) = kv w /\ cache (snd r) = cache w /\ pending (snd r) = pending w).
Proof.
  intros Hkv Hraw Hf r. subst r. pose proof (stats_of_corrupt o _ raw Hf Hkv Hraw) as Hs.
  split.
  - intros Hpath. unfold fetch. rewrite Hpath. cbn [String.eqb Ascii.eqb Bool.eqb].
    unfold mbind, M_bind. rewrite getCacheStats_run. now rewrite Hs.
  - intros d Hd Hcm. rewrite (fetch_decoded rt o request w d Hd), Hcm, Hs.
    destruct (cache_find (url request) (cache w)); events; auto.
Qed.

(** X9. [/cache-stats/reset] answers with its message, leaves the cache and
    the pending stores alone and overwrites whatever the KV namespace held
    under ["stats"]; the stats view that follows shows zeros, 0.00%, "No
    requests yet" and the time of the reset. *)
Theorem reset_endpoint_then_view (o o' : Oracle) (reset view : Request) (w : World) :
  is_reset rt reset ->
  pathname (new_URL rt (url view)) = "/cache-stats" ->
  kv_put_fault o = false -> kv_get_fault o' = false ->
  let r := fetch rt o reset w in
  fst r = Returns (mkResponse 200
            (Json 0 (JObj [("message", JStr "Cache statistics reset")]))
            [("Content-Type", "application/json")]) /\
  cache (snd r) = cache w /\ pending (snd r) = pending w /\
  fst (fetch rt o' view (snd r)) =
    Returns (mkResponse 200
      (Json 2 (JObj [("hits", JNum 0); ("misses", JNum 0);
                     ("lastReset", JStr (now o)); ("total", JNum 0);
                     ("hitRate", JStr "0.00%");
                     ("efficiency", JStr "No requests yet")]))
      [("Content-Type", "application/json")]).
Proof.
  intros Hreset Hview Hput Hget r. subst r. unfold is_reset in Hreset.
  assert (E : fetch rt o reset w =
              (Returns (mkResponse 200
                 (Json 0 (JObj [("message", JStr "Cache statistics reset")]))
                 json_headers),
               mkWorld (<["stats" := Stringified (mkStats 0 0 (now o))]> (kv w))
                 (cache w) (pending w)
                 (trace w ++ [EvKvPut "stats" (Stringified (mkStats 0 0 (now o)))]))).
  { unfold fetch. rewrite Hreset. exec. cbn. now rewrite Hput. }
  rewrite E. cbn [fst snd cache pending].
  split; [reflexivity|]. split; [reflexivity|]. split; [reflexivity|].
  unfold fetch. rewrite Hview. cbn [String.eqb Ascii.eqb Bool.eqb].
  unfold mbind, M_bind. rewrite getCacheStats_run. cbn [kv].
  rewrite (stats_of_stringified o' _ (mkStats 0 0 (now o)) Hget (lookup_insert_eq _ _ _)).
  reflexivity.
Qed.
End StatsRecord.

(** ** One request *)

Section OneRequest.
Variable rt : Runtime.
Variable o : Oracle.

(** X10. The renderer is only ever called with the diagram the request
    decodes to, and with the theme ["dark"] when the [theme] parameter is
    exactly ["dark"], with ["default"] for any other value or none. *)
Theorem renderer_gets_diagram_and_theme (request : Request) (w : World) (d th : string) :
  In (EvRender d th) (new_events w (snd (fetch rt o request w))) ->
  let theme := searchParams_get (searchParams (new_URL rt (url request))) "theme" in
  decodes rt request d /\
  (theme = Some "dark" /\ th = "dark" \/ theme <> Some "dark" /\ th = "default").
Proof.
  intros Hin theme. subst theme.
  destruct (rendered_decoded rt o request w d th Hin) as (Hd & -> & _).
  split; [exact Hd|]. unfold theme_of.
  destruct (searchParams_get (searchParams (new_URL rt (url request))) "theme") as [t|];
    [|right; split; [discriminate | reflexivity]].
  destruct (String.eqb_spec t "dark") as [->|Hne]; [now left|].
  right. split; [congruence | reflexivity].
Qed.

(** X11. One request makes at most one lookup, and that lookup, for its
    own URL, is then the first thing it does; it calls the renderer at most
    once, and only after that lookup; it hands over at most one store, of
    its own request, and only when it has called the renderer. *)
Theorem one_lookup_one_render_one_store (request : Request) (w : World) :
  let w' := snd (fetch rt o request w) in
  let evs := new_events w w' in
  (lookups evs = 0 /\ renders evs = 0 /\ pending w' = pending w) \/
  (exists rest,
     evs = EvCacheMatch (url request) :: rest /\
     lookups rest = 0 /\ renders rest <= 1 /\
     (pending w' = pending w \/
      renders rest = 1 /\
      exists response, pending w' = pending w ++ [CachePut request response])).
Proof.
  cbv zeta. destruct (decodes_or_not rt request) as [[d Hd] | Hno].
  - right. rewrite (fetch_decoded rt o request w d Hd).
    destruct (cache_match_fault o);
      [events; eexists; split; [reflexivity|]; cbn; auto|].
    destruct (cache_find (url request) (cache w));
      destruct (stats_of o (kv w)) as [s|e]; cbn zeta;
      try destruct (kv_put_fault o);
      try destruct (puppeteer o d (theme_of (new_URL rt (url request)))) as [svg|err];
      try destruct (malformed svg); events;
      (eexists; split; [reflexivity|]); cbn; eauto 10.
  - left. destruct (fetch_undecoded rt o request w Hno) as (_ & Hp & Hev & _).
    destruct Hev as [-> | [-> | [[v ->] | ->]]]; cbn; auto.
Qed.

(** The decoded pipeline of the first worker, laid out like the one of the
    second. *)
Lemma legacy_fetch_decoded (request : Request) (w : World) (d : string) :
  decodes rt request d ->
  let key := url request in
  let url' := new_URL rt key in
  let th := theme_of url' in
  Legacy.fetch rt o request w =
    if cache_match_fault o then
      (Throws "cache.match failed", logged w [EvCacheMatch key])
    else
      match cache_find key (cache w) with
      | Some response =>
          (Returns response,
           logged w [EvCacheMatch key;
                     EvLog ("CACHE HIT - " +:+ Legacy.theme_label url' +:+ " theme")])
      | None =>
          let w1 :=
            logged w [EvCacheMatch key;
                      EvLog ("CACHE MISS - " +:+ Legacy.theme_label url'
                               +:+ " theme, diagram: " +:+ Legacy.excerpt d);
                      EvRender d th] in
          match puppeteer o d th with
          | Faulted err =>
              (Returns (mkResponse 500 (Text "Internal error") []),
               logged w1 [EvError "Error during browser rendering:" err])
          | Rendered svg =>
              if malformed svg then
                (Returns (mkResponse 500 (Text "Failed to render SVG") []), w1)
              else
                let response :=
                  mkResponse 200 (Text (default "" svg)) svg_headers in
                (Returns response,
                 mkWorld (kv w1) (cache w1)
                   (pending w1 ++ [CachePut request response]) (trace w1))
          end
      end.
Proof.
  intros (Hpath & c & Hget & Hc & Hdec & Hd) key url' th. subst key url' th.
  apply String.eqb_neq in Hc, Hd.
  unfold Legacy.fetch. rewrite Hpath, Hget.
  cbn [String.eqb Ascii.eqb Bool.eqb negb falsy default from_option id].
  rewrite Hc, Hdec. unfold mbind at 1. unfold M_bind at 1. unfold call.
  cbn [falsy default from_option id]. rewrite Hd.
  unfold mbind, M_bind, cache_match.
  destruct (cache_match_fault o); [reflexivity|].
  destruct (cache_find (url request) (cache w)) as [response|].
  - unfold console_log, emit, mret, M_ret, logged. cbn. now rewrite <- !app_assoc.
  - unfold try_catch, browser_render, console_log, console_error, ctx_waitUntil,
      emit, throw, mbind, M_bind, mret, M_ret, logged. cbn.
    destruct (puppeteer o d (theme_of (new_URL rt (url request)))) as [svg|err]; cbn.
    + destruct (malformed svg); cbn; now rewrite <- !app_assoc.
    + now rewrite <- !app_assoc.
Qed.

(** X12. Adding the statistics did not change what the worker answers:
    outside the three new endpoints, and with a stats store that answers,
    the second worker gives the response of the first, leaves the same cache
    and the same pending store, and calls the renderer as often; the first
    worker never touches the KV namespace. *)
Theorem statistics_leave_the_answer_alone (request : Request) (w : World)
    (s : CacheStats) :
  pathname (new_URL rt (url request)) <> "/cache-stats" ->
  pathname (new_URL rt (url request)) <> "/cache-stats/reset" ->
  pathname (new_URL rt (url request)) <> "/cache-entries" ->
  stats_of o (kv w) = Returns s -> kv_put_fault o = false ->
  let r := fetch rt o request w in
  let r0 := Legacy.fetch rt o request w in
  fst r = fst r0 /\ cache (snd r) = cache (snd r0) /\
  pending (snd r) = pending (snd r0) /\
  renders (new_events w (snd r)) = renders (new_events w (snd r0)) /\
  kv (snd r0) = kv w.
Proof.
  intros H1 H2 H3 Hs Hput. cbv zeta.
  destruct (decodes_or_not rt request) as [[d Hd] | Hno].
  - rewrite (fetch_decoded rt o request w d Hd), (legacy_fetch_decoded request w d Hd).
    rewrite Hs, Hput. cbn zeta.
    destruct (cache_match_fault o); [events; cbn; auto|].
    destruct (cache_find (url request) (cache w));
      try destruct (puppeteer o d (theme_of (new_URL rt (url request)))) as [svg|err];
      try destruct (malformed svg); events; cbn; auto.
  - revert Hno. unfold fetch, Legacy.fetch.
    apply String.eqb_neq in H1, H2, H3. rewrite H1, H2, H3.
    destruct (String.eqb_spec (pathname (new_URL rt (url request))) "/svg") as [E4|E4];
      cbn [negb]; [|cbn; auto].
    destruct (searchParams_get (searchParams (new_URL rt (url request))) "mermaid")
      as [c|] eqn:Hget; cbn [falsy]; [|cbn; auto].
    destruct (String.eqb_spec c "") as [Ec|Ec]; [cbn; auto|].
    cbn [default from_option id].
    unfold call, mbind, M_bind.
    destruct (decompressFromEncodedURIComponent rt c) as [[d|]|e] eqn:Hdec;
      cbn [falsy]; [|cbn; auto|cbn; auto].
    destruct (String.eqb_spec d "") as [Ed|Ed]; [cbn; auto|].
    intros Hno. destruct (Hno d). split; [assumption|]. exists c. auto.
Qed.
End OneRequest.

(** ** Counting with stores that may fail *)

Section Undercount.
Variable rt : Runtime.

Lemma stats_of_record (o : Oracle) (m : gmap string kv_text) (s : CacheStats) :
  m !! "stats" = Some (Stringified s) ->
  stats_of o m = if kv_get_fault o then Throws "KV GET failed" else Returns s.
Proof.
  intros Hm. unfold stats_of. exec. cbn. rewrite Hm. now destruct (kv_get_fault o).
Qed.

(** One request, whatever the stores do: the record moves by at most one
    recording, upwards, and only for a lookup. *)
Lemma serve_step_any (o : Oracle) (request : Request) (w : World) (s : CacheStats) :
  ~ is_reset rt request ->
  kv w !! "stats" = Some (Stringified s) ->
  let w' := snd (serve rt o request w) in
  exists s', kv w' !! "stats" = Some (Stringified s') /\
    lastReset s' = lastReset s /\
    (hits s <= hits s' /\ misses s <= misses s' /\
     hits s' + misses s' <= hits s + misses s + N.of_nat (lookups (new_events w w')))%N.
Proof.
  intros Hreset Hkv w'. subst w'.
  destruct (serve_extends rt o request w) as (-> & Hl & -> & _).
  rewrite lookups_app, Hl, Nat.add_0_r. clear Hl.
  destruct (decodes_or_not rt request) as [[d Hd] | Hno].
  - rewrite (fetch_decoded rt o request w d Hd), (stats_of_record o _ s Hkv).
    destruct (cache_match_fault o); [events; exists s; cbn; repeat split; auto; lia|].
    destruct (cache_find (url request) (cache w));
      destruct (kv_get_fault o); cbn zeta;
      try destruct (kv_put_fault o);
      try destruct (puppeteer o d (theme_of (new_URL rt (url request)))) as [svg|err];
      try destruct (malformed svg); events; cbn [snd kv];
      try (exists s; cbn; repeat split; auto; lia);
      (eexists; split; [apply lookup_insert_eq|]; cbn; repeat split; auto; lia).
  - destruct (fetch_undecoded rt o request w Hno) as (_ & _ & _ & Hsame).
    rewrite (Hsame Hreset). exists s. repeat split; auto; lia.
Qed.

(** X13. Whatever the stores do (any call may reject at any request), in a
    sequential execution without reset the counters never go down, the
    record keeps its [lastReset], and [hits + misses] grows by at most the
    number of lookups made: failures lose recordings, they never add any. *)
Theorem recordings_never_exceed_lookups (steps : list (Oracle * Request)) :
  forall (w : World) (s : CacheStats),
    Forall (fun step => ~ is_reset rt (snd step)) steps ->
    kv w !! "stats" = Some (Stringified s) ->
    exists s', kv (run rt steps w) !! "stats" = Some (Stringified s') /\
      lastReset s' = lastReset s /\
      (hits s <= hits s' /\ misses s <= misses s' /\
       hits s' + misses s' <=
         hits s + misses s + N.of_nat (lookups (new_events w (run rt steps w))))%N.
Proof.
  assert (Hgen : forall steps w s,
    Forall (fun step => ~ is_reset rt (snd step)) steps ->
    kv w !! "stats" = Some (Stringified s) ->
    (exists evs, trace (run rt steps w) = trace w ++ evs) /\
    exists s', kv (run rt steps w) !! "stats" = Some (Stringified s') /\
      lastReset s' = lastReset s /\
      (hits s <= hits s' /\ misses s <= misses s' /\
       hits s' + misses s' <=
         hits s + misses s + N.of_nat (lookups (new_events w (run rt steps w))))%N).
  { clear steps. induction steps as [|[o request] steps IH]; intros w s Hall Hkv; cbn [run].
    - split; [exists []; now rewrite app_nil_r|].
      exists s. rewrite (new_events_same w w eq_refl). cbn. repeat split; auto; lia.
    - inversion Hall as [|? ? Hreset Hrest]; subst. cbn [snd] in Hreset.
      destruct (serve_extends rt o request w) as (_ & _ & _ & Hext1).
      destruct (serve_step_any o request w s Hreset Hkv)
        as (s1 & Hkv1 & Hlast1 & Hh1 & Hm1 & Hc1).
      destruct (IH _ s1 Hrest Hkv1) as (Hext2 & s2 & Hkv2 & Hlast2 & Hh2 & Hm2 & Hc2).
      destruct (new_events_trans w _ _ Hext1 Hext2) as [Hsplit Hext].
      split; [exact Hext|]. exists s2. rewrite Hsplit, lookups_app.
      split; [exact Hkv2|]. split; [congruence|]. lia. }
  intros w s Hall Hkv. now destruct (Hgen steps w s Hall Hkv).
Qed.
End Undercount.

(** ** A warm cache *)

Section Warm.
Variable rt : Runtime.

(** The stats record stays a record through every request, resets
    included. *)
Lemma serve_record (o : Oracle) (request : Request) (w : World) (s : CacheStats) :
  kv w !! "stats" = Some (Stringified s) ->
  exists s', kv (snd (serve rt o request w)) !! "stats" = Some (Stringified s').
Proof.
  intros Hkv.
  destruct (String.eqb_spec (pathname (new_URL rt (url request))) "/cache-stats/reset")
    as [E|E].
  - destruct (serve_extends rt o request w) as (_ & _ & -> & _).
    unfold fetch. rewrite E. exec. cbn.
    destruct (kv_put_fault o); cbn; [eauto|].
    rewrite lookup_insert_eq. eauto.
  - destruct (serve_step_any rt o request w s E Hkv) as (s' & Hs' & _). eauto.
Qed.

Lemma run_record (steps : list (Oracle * Request)) :
  forall (w : World) (s : CacheStats),
    kv w !! "stats" = Some (Stringified s) ->
    exists s', kv (run rt steps w) !! "stats" = Some (Stringified s').
Proof.
  induction steps as [|[o request] steps IH]; intros w s Hkv; cbn [run]; [eauto|].
  destruct (serve_record o request w s Hkv) as [s1 Hs1]. exact (IH _ s1 Hs1).
Qed.

(** X1. A GET request that was answered with an image and served to the
    end (its store accepted) is a hit from then on: after any further
    sequential execution (any requests, resets included, any behaviour of
    the stores and the browser), the same request, when the stats store
    and the lookup answer for it, gets that very response whatever the
    browser would now do; the renderer is not called, and the cache and the
    pending stores stay as they are. *)
Theorem repeated_request_is_a_hit (o o' : Oracle) (request : Request) (w : World)
    (response : Response) (steps : list (Oracle * Request)) :
  pending w = [] -> method request = "GET" -> cache_put_fault o = false ->
  fst (serve rt o request w) = Returns response ->
  is_image response = true ->
  stores_answer o' ->
  let w1 := run rt steps (snd (serve rt o request w)) in
  let r := fetch rt o' request w1 in
  fst r = Returns response /\
  (forall d th, ~ In (EvRender d th) (new_events w1 (snd r))) /\
  cache (snd r) = cache w1 /\ pending (snd r) = [].
Proof.
  intros Hp Hget Hstore Hr Himg (Hkg & Hkp & Hcm) w1 r. subst r.
  destruct (served_image rt o request w response Hp Hget Hstore Hr Himg)
    as ((d & Hd) & (s0 & Hs0) & Hfind0 & Hp0).
  destruct (run_record steps _ s0 Hs0) as [s Hs].
  pose proof (cache_find_run rt steps _ _ _ Hp0 Hfind0) as Hfind.
  pose proof (run_pending rt steps _ Hp0) as Hp1.
  fold w1 in Hs, Hfind, Hp1.
  rewrite (fetch_decoded rt o' request w1 d Hd).
  rewrite Hcm, Hfind, (stats_of_stringified o' _ s Hkg Hs), Hkp. cbn zeta.
  cbn [fst snd cache pending]. split; [reflexivity|]. split; [|auto].
  intros d' th'. events. absent.
Qed.
End Warm.

(** ** The request method *)

Section Method.
Variable rt : Runtime.
Variable o : Oracle.

(** X14. The handler does not read the request method: the same URL under
    another method gets the same outcome, the same stats and the same
    effects.  But only a GET is ever stored: serving a request of another
    method leaves the cache as it was. *)
Theorem method_is_ignored_and_only_get_is_stored (request : Request)
    (m' : string) (w : World) :
  let r := fetch rt o request w in
  let r' := fetch rt o (mkRequest (url request) m') w in
  fst r' = fst r /\ kv (snd r') = kv (snd r) /\ trace (snd r') = trace (snd r) /\
  (method request <> "GET" -> pending w = [] ->
   cache (snd (serve rt o request w)) = cache w).
Proof.
  cbv zeta. split; [|split; [|split]].
  4: { intros Hm Hp. destruct (serve_cache rt o request w Hp)
         as [E | (svg & _ & Hget & _)]; [exact E | contradiction]. }
  all: destruct (decodes_or_not rt request) as [[d Hd] | Hno].
  all: try (rewrite (fetch_decoded rt o request w d Hd),
              (fetch_decoded rt o (mkRequest (url request) m') w d Hd); cbn [url];
            destruct (cache_match_fault o); [reflexivity|];
            destruct (cache_find (url request) (cache w));
            destruct (stats_of o (kv w)) as [s|e]; cbn zeta;
            try destruct (kv_put_fault o);
            try destruct (puppeteer o d (theme_of (new_URL rt (url request)))) as [svg|err];
            try destruct (malformed svg); reflexivity).
  all: revert Hno; unfold fetch; cbn [url].
  all: destruct (String.eqb_spec (pathname (new_URL rt (url request))) "/cache-stats");
         [reflexivity|].
  all: destruct (String.eqb_spec (pathname (new_URL rt (url request))) "/cache-stats/reset");
         [reflexivity|].
  all: destruct (String.eqb_spec (pathname (new_URL rt (url request))) "/cache-entries");
         [reflexivity|].
  all: destruct (String.eqb_spec (pathname (new_URL rt (url request))) "/svg") as [E4|E4];
         cbn [negb]; [|reflexivity].
  all: destruct (searchParams_get (searchParams (new_URL rt (url request))) "mermaid")
         as [c|] eqn:Hget; cbn [falsy]; [|reflexivity].
  all: destruct (String.eqb_spec c "") as [Ec|Ec]; [reflexivity|].
  all: cbn [default from_option id].
  all: unfold call, mbind, M_bind.
  all: destruct (decompressFromEncodedURIComponent rt c) as [[d|]|e] eqn:Hdec;
         cbn [falsy]; [|reflexivity|reflexivity].
  all: destruct (String.eqb_spec d "") as [Ed|Ed]; [reflexivity|].
  all: intros Hno; destruct (Hno d); split; [assumption|]; exists c; auto.
Qed.
End Method.

(** ** Instances of the further properties on the sample data *)

Lemma repeated_request_is_a_hit_witness :
  let request := Sample.GET Sample.svg_href in
  let steps := [(Sample.kv_put_down, Sample.GET Sample.dark_href);
                (Sample.calm, Sample.GET Sample.reset_href);
                (Sample.lookup_down, Sample.GET Sample.svg_href)] in
  pending Sample.fresh = [] /\ method request = "GET" /\
  cache_put_fault Sample.calm = false /\
  fst (serve Sample.rt Sample.calm request Sample.fresh) = Returns Sample.svg_response /\
  is_image Sample.svg_response = true /\
  stores_answer Sample.browser_down /\
  fst (fetch Sample.rt Sample.browser_down request
         (run Sample.rt steps (snd (serve Sample.rt Sample.calm request Sample.fresh))))
    = Returns Sample.svg_response.
Proof.
  cbv zeta.
  assert (Hr : fst (serve Sample.rt Sample.calm (Sample.GET Sample.svg_href) Sample.fresh)
               = Returns Sample.svg_response) by (vm_compute; reflexivity).
  assert (Hi : is_image Sample.svg_response = true) by (vm_compute; reflexivity).
  assert (Ha : stores_answer Sample.browser_down) by (repeat split).
  split; [reflexivity|]. split; [reflexivity|]. split; [reflexivity|].
  split; [exact Hr|]. split; [exact Hi|]. split; [exact Ha|].
  exact (proj1 (repeated_request_is_a_hit Sample.rt Sample.calm Sample.browser_down
                  (Sample.GET Sample.svg_href) Sample.fresh Sample.svg_response _
                  eq_refl eq_refl eq_refl Hr Hi Ha)).
Defined.

Lemma entries_are_kept_witness :
  let steps := [(Sample.calm, Sample.GET Sample.dark_href);
                (Sample.browser_html, Sample.GET Sample.svg_href);
                (Sample.calm, Sample.POST Sample.svg_href)] in
  pending Sample.warm = [] /\
  cache_find Sample.svg_href (cache Sample.warm) = Some Sample.svg_response /\
  cache_find Sample.svg_href (cache (run Sample.rt steps Sample.warm))
    = Some Sample.svg_response.
Proof.
  cbv zeta. split; [reflexivity|]. split; [reflexivity|].
  apply (entries_are_kept Sample.rt); reflexivity.
Defined.

Lemma other_urls_are_untouched_witness :
  let steps := [(Sample.calm, Sample.GET Sample.dark_href);
                (Sample.calm, Sample.GET Sample.stats_href)] in
  pending Sample.fresh = [] /\
  Forall (fun step => url (snd step) <> Sample.svg_href) steps /\
  cache_find Sample.svg_href (cache (run Sample.rt steps Sample.fresh)) = None /\
  List.length (cache (run Sample.rt steps Sample.fresh)) = 1.
Proof.
  cbv zeta.
  assert (Hall : Forall (fun step => url (snd step) <> Sample.svg_href)
            [(Sample.calm, Sample.GET Sample.dark_href);
             (Sample.calm, Sample.GET Sample.stats_href)])
    by (repeat constructor; discriminate).
  split; [reflexivity|]. split; [exact Hall|]. split; [|vm_compute; reflexivity].
  exact (other_urls_are_untouched Sample.rt _ Sample.fresh Sample.svg_href eq_refl Hall).
Defined.

Lemma svg_answers_are_images_or_errors_witness :
  let steps := [(Sample.calm, Sample.GET Sample.svg_href)] in
  let request := Sample.GET Sample.svg_href in
  pending Sample.fresh = [] /\
  Forall (fun entry => is_image (snd entry) = true) (cache Sample.fresh) /\
  pathname (new_URL Sample.rt (url request)) = "/svg" /\
  fst (fetch Sample.rt Sample.browser_html request (run Sample.rt steps Sample.fresh))
    = Returns Sample.svg_response /\
  (is_image Sample.svg_response = true \/
   (exists msg, Sample.svg_response = mkResponse 400 (Text msg) []) \/
   (exists msg, Sample.svg_response = mkResponse 500 (Text msg) [])).
Proof.
  cbv zeta.
  assert (Hr : fst (fetch Sample.rt Sample.browser_html (Sample.GET Sample.svg_href)
                      (run Sample.rt [(Sample.calm, Sample.GET Sample.svg_href)] Sample.fresh))
               = Returns Sample.svg_response) by (vm_compute; reflexivity).
  split; [reflexivity|]. split; [constructor|]. split; [reflexivity|]. split; [exact Hr|].
  exact (svg_answers_are_images_or_errors Sample.rt _ Sample.fresh Sample.browser_html
           (Sample.GET Sample.svg_href) Sample.svg_response
           eq_refl (List.Forall_nil _) eq_refl Hr).
Defined.

Lemma interleaved_recordings_lose_one_witness :
  let w := Sample.with_stats 45 12 in
  kv w !! "stats" = Some (Stringified (mkStats 45 12 Sample.clock)) /\
  kv_get_fault Sample.calm = false /\ kv_put_fault Sample.calm = false /\
  kv (snd ((incrementCacheHit Sample.calm ≫= fun _ => incrementCacheHit Sample.calm) w))
    !! "stats" = Some (Stringified (mkStats 47 12 Sample.clock)) /\
  kv (snd (interleaved Sample.calm Sample.calm (resume_hit Sample.calm)
             (resume_hit Sample.calm) w))
    !! "stats" = Some (Stringified (mkStats 46 12 Sample.clock)).
Proof.
  cbv zeta.
  destruct (interleaved_recordings_lose_one Sample.calm Sample.calm
              (Sample.with_stats 45 12) (mkStats 45 12 Sample.clock)
              eq_refl eq_refl eq_refl eq_refl eq_refl) as (_ & _ & Hseq & Hrace & _).
  split; [reflexivity|]. split; [reflexivity|]. split; [reflexivity|].
  split; [exact Hseq | exact Hrace].
Defined.

Lemma stats_view_is_read_only_witness :
  let request := Sample.GET Sample.stats_href in
  pathname (new_URL Sample.rt (url request)) = "/cache-stats" /\
  kv (snd (fetch Sample.rt Sample.calm request Sample.fresh)) = kv Sample.fresh /\
  kv (snd (fetch Sample.rt Sample.calm request Sample.fresh)) !! "stats" = None.
Proof.
  cbv zeta. split; [reflexivity|].
  destruct (stats_view_is_read_only Sample.rt Sample.calm (Sample.GET Sample.stats_href)
              Sample.fresh eq_refl) as (Hkv & _).
  split; [exact Hkv|]. rewrite Hkv. reflexivity.
Defined.

Lemma corrupt_record_stops_the_pipeline_witness :
  let request := Sample.GET Sample.svg_href in
  kv Sample.corrupt !! "stats" = Some (Unparseable "{hits:") /\
  "{hits:" <> "" /\ kv_get_fault Sample.calm = false /\
  decodes Sample.rt request "graph TD; A-->B" /\
  cache_match_fault Sample.calm = false /\
  cache_find (url request) (cache Sample.corrupt) = Some Sample.svg_response /\
  fst (fetch Sample.rt Sample.calm request Sample.corrupt) = Throws "SyntaxError".
Proof.
  cbv zeta.
  assert (Hd : decodes Sample.rt (Sample.GET Sample.svg_href) "graph TD; A-->B").
  { split; [reflexivity|]. exists Sample.encoded_graph.
    split; [reflexivity|]. split; [discriminate|]. split; [reflexivity | discriminate]. }
  split; [reflexivity|]. split; [discriminate|]. split; [reflexivity|].
  split; [exact Hd|]. split; [reflexivity|]. split; [reflexivity|].
  exact (proj1 (proj2 (corrupt_record_stops_the_pipeline Sample.rt Sample.calm
                  (Sample.GET Sample.svg_href) Sample.corrupt "{hits:"
                  eq_refl ltac:(discriminate) eq_refl) _ Hd eq_refl)).
Defined.

Lemma reset_endpoint_then_view_witness :
  let reset := Sample.GET Sample.reset_href in
  let view := Sample.GET Sample.stats_href in
  is_reset Sample.rt reset /\
  pathname (new_URL Sample.rt (url view)) = "/cache-stats" /\
  kv_put_fault Sample.calm = false /\ kv_get_fault Sample.calm = false /\
  cache (snd (fetch Sample.rt Sample.calm reset Sample.corrupt)) = cache Sample.corrupt /\
  fst (fetch Sample.rt Sample.calm view
         (snd (fetch Sample.rt Sample.calm reset Sample.corrupt))) =
    Returns (mkResponse 200
      (Json 2 (JObj [("hits", JNum 0); ("misses", JNum 0);
                     ("lastReset", JStr Sample.clock); ("total", JNum 0);
                     ("hitRate", JStr "0.00%");
                     ("efficiency", JStr "No requests yet")]))
      [("Content-Type", "application/json")]).
Proof.
  cbv zeta.
  destruct (reset_endpoint_then_view Sample.rt Sample.calm Sample.calm
              (Sample.GET Sample.reset_href) (Sample.GET Sample.stats_href)
              Sample.corrupt eq_refl eq_refl eq_refl eq_refl) as (_ & Hc & _ & Hv).
  split; [reflexivity|]. split; [reflexivity|]. split; [reflexivity|].
  split; [reflexivity|]. split; [exact Hc | exact Hv].
Defined.

Lemma renderer_gets_diagram_and_theme_witness :
  let request := Sample.GET Sample.dark_href in
  In (EvRender "graph TD; A-->B" "dark")
     (new_events Sample.fresh (snd (fetch Sample.rt Sample.calm request Sample.fresh))) /\
  decodes Sample.rt request "graph TD; A-->B" /\
  searchParams_get (searchParams (new_URL Sample.rt (url request))) "theme" = Some "dark".
Proof.
  cbv zeta.
  assert (Hin : In (EvRender "graph TD; A-->B" "dark")
            (new_events Sample.fresh
               (snd (fetch Sample.rt Sample.calm (Sample.GET Sample.dark_href) Sample.fresh))))
    by (vm_compute; auto 10).
  destruct (renderer_gets_diagram_and_theme Sample.rt Sample.calm
              (Sample.GET Sample.dark_href) Sample.fresh _ _ Hin) as (Hd & _).
  split; [exact Hin|]. split; [exact Hd | reflexivity].
Defined.

Lemma statistics_leave_the_answer_alone_witness :
  let request := Sample.GET Sample.svg_href in
  pathname (new_URL Sample.rt (url request)) <> "/cache-stats" /\
  pathname (new_URL Sample.rt (url request)) <> "/cache-stats/reset" /\
  pathname (new_URL Sample.rt (url request)) <> "/cache-entries" /\
  stats_of Sample.calm (kv Sample.warm) = Returns (mkStats 0 1 Sample.clock) /\
  kv_put_fault Sample.calm = false /\
  fst (fetch Sample.rt Sample.calm request Sample.warm)
    = fst (Legacy.fetch Sample.rt Sample.calm request Sample.warm) /\
  fst (Legacy.fetch Sample.rt Sample.calm request Sample.warm)
    = Returns Sample.svg_response.
Proof.
  cbv zeta.
  assert (H1 : pathname (new_URL Sample.rt (url (Sample.GET Sample.svg_href)))
               <> "/cache-stats") by discriminate.
  assert (H2 : pathname (new_URL Sample.rt (url (Sample.GET Sample.svg_href)))
               <> "/cache-stats/reset") by discriminate.
  assert (H3 : pathname (new_URL Sample.rt (url (Sample.GET Sample.svg_href)))
               <> "/cache-entries") by discriminate.
  split; [exact H1|]. split; [exact H2|]. split; [exact H3|].
  split; [reflexivity|]. split; [reflexivity|]. split; [|vm_compute; reflexivity].
  exact (proj1 (statistics_leave_the_answer_alone Sample.rt Sample.calm
                  (Sample.GET Sample.svg_href) Sample.warm (mkStats 0 1 Sample.clock)
                  H1 H2 H3 eq_refl eq_refl)).
Defined.

Lemma recordings_never_exceed_lookups_witness :
  let steps := [(Sample.kv_put_down, Sample.GET Sample.svg_href);
                (Sample.lookup_down, Sample.GET Sample.svg_href);
                (Sample.calm, Sample.GET Sample.svg_href)] in
  let w := Sample.with_stats 0 0 in
  Forall (fun step => ~ is_reset Sample.rt (snd step)) steps /\
  kv w !! "stats" = Some (Stringified (mkStats 0 0 Sample.clock)) /\
  lookups (new_events w (run Sample.rt steps w)) = 3 /\
  kv (run Sample.rt steps w) !! "stats" = Some (Stringified (mkStats 0 1 Sample.clock)) /\
  exists s', kv (run Sample.rt steps w) !! "stats" = Some (Stringified s') /\
    (hits s' + misses s' <= 3)%N.
Proof.
  cbv zeta.
  assert (Hall : Forall (fun step => ~ is_reset Sample.rt (snd step))
            [(Sample.kv_put_down, Sample.GET Sample.svg_href);
             (Sample.lookup_down, Sample.GET Sample.svg_href);
             (Sample.calm, Sample.GET Sample.svg_href)])
    by (repeat constructor; discriminate).
  assert (Hl : lookups (new_events (Sample.with_stats 0 0)
                 (run Sample.rt
                    [(Sample.kv_put_down, Sample.GET Sample.svg_href);
                     (Sample.lookup_down, Sample.GET Sample.svg_href);
                     (Sample.calm, Sample.GET Sample.svg_href)]
                    (Sample.with_stats 0 0))) = 3) by (vm_compute; reflexivity).
  split; [exact Hall|]. split; [reflexivity|]. split; [exact Hl|].
  split; [vm_compute; reflexivity|].
  destruct (recordings_never_exceed_lookups Sample.rt _ (Sample.with_stats 0 0)
              (mkStats 0 0 Sample.clock) Hall eq_refl)
    as (s' & Hkv & _ & _ & _ & Hle).
  exists s'. split; [exact Hkv|]. rewrite Hl in Hle. cbn in Hle. exact Hle.
Defined.

Lemma method_is_ignored_and_only_get_is_stored_witness :
  let request := Sample.POST Sample.svg_href in
  method request <> "GET" /\ pending Sample.fresh = [] /\
  fst (fetch Sample.rt Sample.calm request Sample.fresh) = Returns Sample.svg_response /\
  cache (snd (serve Sample.rt Sample.calm request Sample.fresh)) = [].
Proof.
  cbv zeta.
  assert (Hm : method (Sample.POST Sample.svg_href) <> "GET") by discriminate.
  split; [exact Hm|]. split; [reflexivity|]. split; [vm_compute; reflexivity|].
  exact (proj2 (proj2 (proj2 (method_is_ignored_and_only_get_is_stored Sample.rt
                  Sample.calm (Sample.POST Sample.svg_href) "GET" Sample.fresh)))
           Hm eq_refl).
Defined.
